(** * NY Housing Explorer: the data pipeline of [CS230_final.py]

    The script loads a CSV of housing listings with pandas, derives a
    borough and a price per square foot, drops incomplete rows, filters by
    a price ceiling and a borough, and feeds tables, metrics and charts to
    Streamlit.  This development embeds the pandas operations the script
    calls (column access and assignment, boolean indexing, [str.extract],
    [dropna], [sort_values], [value_counts], [mean], [median]) over a small
    model of a [DataFrame], transcribes the script line by line on top of
    them, and proves the properties the specification states about it. *)

From Stdlib Require Import ZArith List String Ascii Bool Lia Permutation Sorted.
From Stdlib Require Import Floats.SpecFloat.
From stdpp Require Import base option list strings gmap fin_maps sorting.

(* ===================================================================== *)
(** * Data model *)
(* ===================================================================== *)

(** ** Numbers

    pandas stores a numeric CSV column as IEEE-754 binary64 ([float64])
    as soon as one field is missing or has a decimal point, with NaN as
    the marker of a missing value.  Numbers are modelled by the Standard
    Library's specification of binary floating point at precision 53 and
    maximal exponent 1024.  An all-integer column ([int64]) holds the same
    values as long as they are below 2^53 in magnitude. *)

Abbreviation float := spec_float.

Definition prec : Z := 53.
Definition emax : Z := 1024.

Definition nan : float := S754_nan.
Definition pos_zero : float := S754_zero false.

Definition is_nan (x : float) : bool :=
  match x with S754_nan => true | _ => false end.

Definition is_zero (x : float) : bool :=
  match x with S754_zero _ => true | _ => false end.

Definition is_inf (x : float) : bool :=
  match x with S754_infinity _ => true | _ => false end.

Definition fdiv : float → float → float := SFdiv prec emax.
Definition fadd : float → float → float := SFadd prec emax.

(** [x <= y], [x < y]: false as soon as one side is NaN. *)
Definition fle : float → float → bool := SFleb.
Definition flt : float → float → bool := SFltb.

(** A Python or numpy integer converted to binary64 (round to nearest,
    ties to even). *)
Definition of_int (z : Z) : float := binary_normalize prec emax z 0 false.

(** The literal [0.05]: its nearest binary64, 0x3FA999999999999A. *)
Definition lit_0_05 : float := S754_finite false 7205759403792794 (-57).

(** ** Cells, series and frames

    A cell of a frame read from CSV is a number or a string; a missing
    field is the number NaN, in numeric and in string columns alike. *)

Inductive cell :=
  | Num (x : float)
  | Str (s : string).

Definition NaN : cell := Num nan.

Definition isna (c : cell) : bool :=
  match c with Num x => is_nan x | Str _ => false end.

Definition notna (c : cell) : bool := negb (isna c).

Definition is_str (c : cell) : bool :=
  match c with Str _ => true | Num _ => false end.

(** A row maps column labels to cells; a frame is its list of column
    labels together with its rows, in order.  The labels decide whether a
    column exists ([KeyError] otherwise), so a frame can have columns and
    no row (a filtered view that matched nothing) or neither
    ([pd.DataFrame()]). *)

Abbreviation Row := (gmap string cell).
Abbreviation Series := (list cell).

Record DataFrame := mkDataFrame {
  columns : list string;
  rows : list Row
}.

(** [pd.DataFrame()] *)
Definition empty_frame : DataFrame := mkDataFrame [] [].

(** [df.empty]: one of the two axes has length zero. *)
Definition df_empty (df : DataFrame) : bool :=
  match columns df, rows df with
  | [], _ | _, [] => true
  | _, _ => false
  end.

Definition has_column (df : DataFrame) (c : string) : bool :=
  bool_decide (c ∈ columns df).

Definition cell_at (r : Row) (c : string) : cell := default NaN (r !! c).

(** ** Exceptions *)

Inductive exn :=
  | FileNotFoundError
  | KeyError (label : string)
  | TypeError
  | AttributeError
  | ValueError
  | OverflowError
  | StopException.

Inductive res (A : Type) :=
  | Ok (a : A)
  | Raise (e : exn).
Arguments Ok {A} a.
Arguments Raise {A} e.

#[global] Instance res_ret : MRet res := @Ok.
#[global] Instance res_bind : MBind res := λ A B f m,
  match m with Ok a => f a | Raise e => Raise e end.

Fixpoint traverse {A B} (f : A → res B) (l : list A) : res (list B) :=
  match l with
  | [] => Ok []
  | x :: l' => y ← f x; ys ← traverse f l'; Ok (y :: ys)
  end.

(* ===================================================================== *)
(** * The pandas operations the script uses *)
(* ===================================================================== *)

(** [df[c]] *)
Definition getitem (df : DataFrame) (c : string) : res Series :=
  if has_column df c then Ok ((λ r, cell_at r c) <$> rows df)
  else Raise (KeyError c).

(** [df[c] = s], for a series [s] computed from [df] itself (so the two
    are aligned row by row): replaces the column, or appends it after the
    existing ones. *)
Definition setitem (df : DataFrame) (c : string) (s : Series) : DataFrame :=
  {| columns := if has_column df c then columns df else columns df ++ [c];
     rows := zip_with (λ r v, <[c := v]> r) (rows df) s |}.

(** Boolean indexing [l[mask]]. *)
Fixpoint select {A} (mask : list bool) (l : list A) : list A :=
  match mask, l with
  | b :: mask', x :: l' => if b then x :: select mask' l' else select mask' l'
  | _, _ => []
  end.

(** [df[mask]] *)
Definition loc_mask (df : DataFrame) (mask : list bool) : DataFrame :=
  {| columns := columns df; rows := select mask (rows df) |}.

(** [s <= x] against a number: an ordering comparison with a string
    raises. *)
Definition le_scalar (s : Series) (x : float) : res (list bool) :=
  traverse (λ c, match c with
                 | Num v => Ok (fle v x)
                 | Str _ => Raise TypeError
                 end) s.

(** [s == v] against a string: never raises, and NaN equals nothing. *)
Definition eq_scalar (s : Series) (v : string) : list bool :=
  (λ c, match c with Str x => String.eqb x v | Num _ => false end) <$> s.

(** [a / b], element by element: a string operand raises; on numbers it
    is the binary64 division, which never raises (numpy's warnings are
    silenced by pandas). *)
Definition truediv_cell (a b : cell) : res cell :=
  match a, b with
  | Num x, Num y => Ok (Num (fdiv x y))
  | _, _ => Raise TypeError
  end.

Definition truediv (a b : Series) : res Series :=
  traverse (λ p, truediv_cell p.1 p.2) (zip a b).

(** [rename(columns=f)].  When two labels collide after renaming, pandas
    keeps both columns under the one label, and [df[label]] is then a
    frame and no longer a series.  Here the row keeps the cell of the
    leftmost of them only: the model is that of pandas on the frames
    whose renamed labels are distinct, [NoDup (columns (rename f df))],
    and the statements that depend on it assume as much. *)
Definition rename (f : string → string) (df : DataFrame) : DataFrame :=
  {| columns := f <$> columns df;
     rows := (λ r, list_to_map ((λ c, (f c, cell_at r c)) <$> columns df))
               <$> rows df |}.

(** [str.lower], on ASCII letters. *)
Definition lower_ascii (a : ascii) : ascii :=
  let n := nat_of_ascii a in
  if (65 <=? n)%nat && (n <=? 90)%nat then ascii_of_nat (n + 32) else a.

Fixpoint str_lower (s : string) : string :=
  match s with
  | EmptyString => EmptyString
  | String a s' => String (lower_ascii a) (str_lower s')
  end.

(** ** Regular-expression search for an alternation of literals

    [re.search("(a1|a2|...)", s)]: the match is at the leftmost position
    where some alternative matches, and at that position the first
    alternative that matches, in the order they are written.  Strings are
    byte strings; the five borough names are ASCII, and in UTF-8 an ASCII
    byte never occurs inside the encoding of another character, so
    searching bytes finds what searching characters finds. *)

Fixpoint re_search (alts : list string) (s : string) : option string :=
  match List.find (λ a, String.prefix a s) alts with
  | Some a => Some a
  | None =>
      match s with
      | EmptyString => None
      | String _ s' => re_search alts s'
      end
  end.

(** The [.str] accessor refuses a column that holds no string: a
    non-empty column of numbers (or of missing values only) has dtype
    [float64]. *)
Definition str_accessor (s : Series) : res Series :=
  match s with
  | [] => Ok s
  | _ :: _ => if existsb is_str s then Ok s else Raise AttributeError
  end.

(** [s.str.extract("(a1|a2|...)")]: the text of the group, or NaN where
    there is no match or the cell is not a string. *)
Definition extract_cell (alts : list string) (c : cell) : cell :=
  match c with
  | Str x => match re_search alts x with
             | Some m => Str m
             | None => NaN
             end
  | Num _ => NaN
  end.

Definition str_extract (alts : list string) (s : Series) : Series :=
  extract_cell alts <$> s.

(** [df.dropna(subset=labels)]: a label that is not a column raises; a
    row survives when none of its cells under [labels] is missing. *)
Definition dropna (df : DataFrame) (subset : list string) : res DataFrame :=
  match List.find (λ c, negb (has_column df c)) subset with
  | Some c => Raise (KeyError c)
  | None =>
      Ok {| columns := columns df;
            rows := List.filter (λ r, forallb (λ c, notna (cell_at r c)) subset)
                      (rows df) |}
  end.

(** [df[[c1, c2, ...]]]: the frame restricted to the listed columns. *)
Definition project (df : DataFrame) (cols : list string) : res DataFrame :=
  match List.find (λ c, negb (has_column df c)) cols with
  | Some c => Raise (KeyError c)
  | None =>
      Ok {| columns := cols;
            rows := (λ r, list_to_map ((λ c, (c, cell_at r c)) <$> cols))
                      <$> rows df |}
  end.

(** [df.head(n)] *)
Definition df_head (n : nat) (df : DataFrame) : DataFrame :=
  {| columns := columns df; rows := firstn n (rows df) |}.

(** ** Reductions of a numeric series *)

Definition numeric (s : Series) : res (list float) :=
  traverse (λ c, match c with
                 | Num x => Ok x
                 | Str _ => Raise TypeError
                 end) s.

Definition non_nans (xs : list float) : list float :=
  List.filter (λ x, negb (is_nan x)) xs.

Definition fsum (xs : list float) : float := fold_left fadd xs pos_zero.

(** [s.mean()], missing values skipped: the sum over the count, and NaN
    when nothing is left to average.  (numpy adds the terms pairwise, so
    on long series the last bits of the sum may differ from the
    left-to-right sum taken here.) *)
Definition mean (s : Series) : res cell :=
  xs ← numeric s;
  let v := non_nans xs in
  Ok (Num (match v with
           | [] => nan
           | _ :: _ => fdiv (fsum v) (of_int (Z.of_nat (length v)))
           end)).

Fixpoint insert_sorted (x : float) (l : list float) : list float :=
  match l with
  | [] => [x]
  | y :: l' => if fle x y then x :: y :: l' else y :: insert_sorted x l'
  end.

Definition sort_floats (xs : list float) : list float :=
  foldr insert_sorted [] xs.

(** [s.median()], missing values skipped: the middle of the sorted
    values, the mean of the two middle ones when their number is even,
    and NaN when there is none. *)
Definition median (s : Series) : res cell :=
  xs ← numeric s;
  let v := sort_floats (non_nans xs) in
  let n := length v in
  Ok (Num (match v with
           | [] => nan
           | _ :: _ =>
               if Nat.odd n then nth (n / 2) v nan
               else fdiv (fadd (nth (n / 2 - 1) v nan) (nth (n / 2) v nan))
                         (of_int 2)
           end)).

Definition fmin (a b : float) : float := if flt b a then b else a.
Definition fmax (a b : float) : float := if flt a b then b else a.

(** [s.min()] and [s.max()], missing values skipped; NaN on nothing. *)
Definition series_min (s : Series) : res float :=
  xs ← numeric s;
  Ok (match non_nans xs with
      | [] => nan
      | x :: v => fold_left fmin v x
      end).

Definition series_max (s : Series) : res float :=
  xs ← numeric s;
  Ok (match non_nans xs with
      | [] => nan
      | x :: v => fold_left fmax v x
      end).

(** Python's [int(x)] on a float: truncation toward zero. *)
Definition int_of_float (x : float) : res Z :=
  match x with
  | S754_nan => Raise ValueError
  | S754_infinity _ => Raise OverflowError
  | S754_zero _ => Ok 0%Z
  | S754_finite s m e =>
      let a := Z.shiftl (Zpos m) e in
      Ok (if s then (- a)%Z else a)
  end.

(** ** [value_counts]

    The counts of the distinct non-missing values of a series, as a
    mapping from value to count.  (pandas orders the result by decreasing
    count; the order only decides the order of the slices of the pie and
    is not kept.)  The two zeros of binary64 are one key. *)

#[global] Instance spec_float_eq_dec : EqDecision spec_float.
Proof. solve_decision. Defined.

#[global] Instance cell_eq_dec : EqDecision cell.
Proof. solve_decision. Defined.

Definition cell_code (c : cell) : (bool + bool) + (unit + bool * positive * Z) + string :=
  match c with
  | Num (S754_zero s) => inl (inl (inl s))
  | Num (S754_infinity s) => inl (inl (inr s))
  | Num S754_nan => inl (inr (inl tt))
  | Num (S754_finite s m e) => inl (inr (inr (s, m, e)))
  | Str s => inr s
  end.

Definition cell_decode (x : (bool + bool) + (unit + bool * positive * Z) + string) : cell :=
  match x with
  | inl (inl (inl s)) => Num (S754_zero s)
  | inl (inl (inr s)) => Num (S754_infinity s)
  | inl (inr (inl _)) => Num S754_nan
  | inl (inr (inr (s, m, e))) => Num (S754_finite s m e)
  | inr s => Str s
  end.

#[global] Program Instance cell_countable : Countable cell :=
  inj_countable' cell_code cell_decode _.
Next Obligation. by intros [[]|]. Qed.

Definition key_of (c : cell) : cell :=
  match c with
  | Num (S754_zero _) => Num pos_zero
  | _ => c
  end.

Definition count_of (m : gmap cell Z) (k : cell) : Z := default 0%Z (m !! k).

Definition value_counts (s : Series) : gmap cell Z :=
  foldr (λ c m, if isna c then m
                else <[key_of c := (count_of m (key_of c) + 1)%Z]> m) ∅ s.

(** [counts.sum()] *)
Definition counts_sum (m : gmap cell Z) : Z :=
  map_fold (λ _ v acc, (v + acc)%Z) 0%Z m.

(** [l[indexer]]: the elements of [l] at the positions listed. *)
Definition take_idx {A} (l : list A) (indexer : list nat) : list A :=
  omap (λ i, l !! i) indexer.

(* ===================================================================== *)
(** * Streamlit: the effects of the script *)
(* ===================================================================== *)

(** Each call that shows something is recorded, in order.  [np.histogram],
    the group-by mean and the chart drawers belong to the presentation
    layer: their calls are recorded with the data they receive and their
    results are not computed. *)

Inductive event :=
  | st_set_page_config (page_title layout initial_sidebar_state : string)
  | st_title (body : string)
  | st_error (body : string)
  | st_sidebar_header (body : string)
  | st_sidebar_selectbox (label : string) (options : list string)
  | st_sidebar_slider (label : string) (min_value max_value value : Z)
  | st_sidebar_radio (label : string) (options : list string)
  | st_subheader (body : string)
  | st_table (df : DataFrame)
  | st_metric (label : string) (value : cell)
  | st_metric_count (label : string) (n : nat)
  | st_bar_chart_histogram (values : Series) (bins : Z)
  | st_bar_chart_group_mean (df : DataFrame) (key value : string)
  | st_pyplot_pie (slices : gmap cell Z)
  | st_pydeck_chart (df : DataFrame) (latitude longitude : cell).

(** A computation of the script: its result, or the exception that ended
    it, and the events it produced until then. *)
Definition St (A : Type) : Type := res A * list event.

#[global] Instance St_ret : MRet St := λ A a, (Ok a, []).
#[global] Instance St_bind : MBind St := λ A B f m,
  match m.1 with
  | Ok a => ((f a).1, m.2 ++ (f a).2)
  | Raise e => (Raise e, m.2)
  end.

Definition emit (e : event) : St unit := (Ok tt, [e]).
Definition lift {A} (r : res A) : St A := (r, []).

(** [st.stop()]: ends the run of the script. *)
Definition st_stop {A} : St A := (Raise StopException, []).

(** What the user has selected in the three widgets, as a function of
    what each widget offers. *)
Record UI := mkUI {
  pick_borough : list string → string;
  pick_price : Z → Z → Z → Z;
  pick_page : list string → string
}.

(* ===================================================================== *)
(** * The script *)
(* ===================================================================== *)

(** The default of [load_data]'s parameter. *)
Definition dataset_path : string := "NY-House-Dataset.csv".

Definition borough_names : list string :=
  ["Manhattan"; "Brooklyn"; "Queens"; "The Bronx"; "Staten Island"].

(** ** [load_data]

    [derive] is the body of [load_data] from the renaming of the columns
    to the price per square foot (lines 32 to 39), [clean] adds the
    [dropna] of line 41, and [load_data] is the whole function, with its
    [try] around [read_csv].  The file system is the function [fs], from
    a path to what [pd.read_csv] returns or raises on it. *)

Definition derive (raw : DataFrame) : res DataFrame :=
  let df := rename str_lower raw in
  sub ← getitem df "sublocality";
  sub ← str_accessor sub;
  let df := setitem df "borough" (str_extract borough_names sub) in
  df ← (if has_column df "propertysqft"
        then sqft ← getitem df "propertysqft"; Ok (setitem df "sqft" sqft)
        else Ok df);
  price ← getitem df "price";
  sqft ← getitem df "sqft";
  pps ← truediv price sqft;
  Ok (setitem df "price_per_sqft" pps).

Definition key_fields : list string :=
  ["price"; "latitude"; "longitude"; "borough"].

Definition clean (raw : DataFrame) : res DataFrame :=
  df ← derive raw;
  dropna df key_fields.

Definition load_data (fs : string → res DataFrame) (filepath : string)
  : St DataFrame :=
  match fs filepath with
  | Raise FileNotFoundError =>
      _ ← emit (st_error ("File not found: " +:+ filepath));
      mret empty_frame
  | Raise e => lift (Raise e)
  | Ok raw => lift (clean raw)
  end.

(** ** [compute_price_stats] *)

Definition compute_price_stats (df : DataFrame) (borough : string)
  : res (cell * cell) :=
  subset ← (if String.eqb borough "All" then Ok df
            else b ← getitem df "borough";
                 Ok (loc_mask df (eq_scalar b borough)));
  p ← getitem subset "price";
  avg ← mean p;
  p ← getitem subset "price";
  med ← median p;
  Ok (avg, med).

(** ** The two filters (lines 65 to 68)

    The slider hands an integer over; the comparison with the price
    column is made in binary64, and [price_threshold] is the integer as
    the comparison sees it. *)

Definition filtered (data : DataFrame) (price_threshold : float)
    (selected_borough : string) : res DataFrame :=
  p ← getitem data "price";
  m ← le_scalar p price_threshold;
  let filtered := loc_mask data m in
  if negb (String.eqb selected_borough "All") then
    b ← getitem filtered "borough";
    Ok (loc_mask filtered (eq_scalar b selected_borough))
  else Ok filtered.

(** ** The property-type breakdown of the pie chart (lines 111 to 115) *)

Definition share (count total : Z) : float :=
  fdiv (of_int count) (of_int total).

(** [type_counts[type_counts / total >= 0.05]] *)
Definition main_of (type_counts : gmap cell Z) : gmap cell Z :=
  let total := counts_sum type_counts in
  filter (λ kv, fle lit_0_05 (share kv.2 total) = true) type_counts.

(** [type_counts[type_counts / total < 0.05].sum()] *)
Definition other_count_of (type_counts : gmap cell Z) : Z :=
  let total := counts_sum type_counts in
  counts_sum (filter (λ kv, flt (share kv.2 total) lit_0_05 = true) type_counts).

Definition pie_slices (filtered : DataFrame) : res (gmap cell Z) :=
  t ← getitem filtered "type";
  let type_counts := value_counts t in
  let main := main_of type_counts in
  let other_count := other_count_of type_counts in
  Ok (<[Str "Other" := other_count]> main).

(** [sorted(s.unique())] on a column of strings. *)
Definition strings_of (s : Series) : res (list string) :=
  traverse (λ c, match c with
                 | Str x => Ok x
                 | Num _ => Raise TypeError
                 end) s.

Fixpoint insert_string (x : string) (l : list string) : list string :=
  match l with
  | [] => [x]
  | y :: l' => if String.leb x y then x :: y :: l' else y :: insert_string x l'
  end.

Definition sorted_unique (l : list string) : list string :=
  foldr insert_string [] (remove_dups l).

Section Script.

(** ** Sorting

    [sort_values] is called with its default [kind="quicksort"], which
    numpy implements by an introsort and pandas documents as not stable
    (only "mergesort" and "stable" are).  The algorithm is a parameter:
    [quicksort xs] is numpy's [xs.argsort(kind="quicksort")] on a list
    without NaN, the positions of [xs] in an order that sorts it.
    numpy's generic routine is [npy_aquicksort], after this section. *)

Variable quicksort : list float → list nat.

(** pandas' [nargsort]: missing values are set aside and come last; a
    descending sort reverses the values, sorts, and reverses the
    result. *)
Definition nargsort (items : list float) (ascending : bool) : list nat :=
  let idx := seq 0 (length items) in
  let mask := is_nan <$> items in
  let non_nans := select (negb <$> mask) items in
  let non_nan_idx := select (negb <$> mask) idx in
  let nan_idx := select mask idx in
  let non_nans := if ascending then non_nans else reverse non_nans in
  let non_nan_idx := if ascending then non_nan_idx else reverse non_nan_idx in
  let indexer := take_idx non_nan_idx (quicksort non_nans) in
  let indexer := if ascending then indexer else reverse indexer in
  indexer ++ nan_idx.

(** [df.sort_values(by, ascending=...)] on a numeric column. *)
Definition sort_values (df : DataFrame) (by_ : string) (ascending : bool)
  : res DataFrame :=
  k ← getitem df by_;
  xs ← numeric k;
  Ok {| columns := columns df;
        rows := take_idx (rows df) (nargsort xs ascending) |}.

(** [filtered.sort_values('price', ascending=...).head(n)] (lines 80
    and 85, with n = 5). *)
Definition rank_by_price (filtered : DataFrame) (n : nat) (ascending : bool)
  : res DataFrame :=
  s ← sort_values filtered "price" ascending;
  Ok (df_head n s).

Definition listing_columns : list string :=
  ["borough"; "type"; "price"; "sqft"; "latitude"; "longitude"].

Definition page_data (filtered : DataFrame) (selected_borough : string)
  : St unit :=
  _ ← emit (st_subheader "Data Overview");
  _ ← emit (st_subheader "Top 5 Most Expensive Listings");
  top5 ← lift (rank_by_price filtered 5 false);
  t ← lift (project top5 listing_columns);
  _ ← emit (st_table t);
  _ ← emit (st_subheader "5 Cheapest Listings");
  cheapest5 ← lift (rank_by_price filtered 5 true);
  t ← lift (project cheapest5 listing_columns);
  _ ← emit (st_table t);
  stats ← lift (compute_price_stats filtered selected_borough);
  _ ← emit (st_subheader "Summary Metrics");
  _ ← emit (st_metric "Average Price" stats.1);
  _ ← emit (st_metric "Median Price" stats.2);
  emit (st_metric_count "Total Listings" (length (rows filtered))).

Definition page_charts (filtered : DataFrame) : St unit :=
  _ ← emit (st_subheader "Charts Overview");
  _ ← emit (st_subheader "Price Distribution");
  p ← lift (getitem filtered "price");
  _ ← emit (st_bar_chart_histogram p 30);
  _ ← emit (st_subheader "Average Price by Borough");
  _ ← lift (getitem filtered "borough");
  _ ← lift (getitem filtered "price");
  _ ← emit (st_bar_chart_group_mean filtered "borough" "price");
  _ ← emit (st_subheader "Property Type Distribution");
  main ← lift (pie_slices filtered);
  emit (st_pyplot_pie main).

Definition page_map (filtered : DataFrame) : St unit :=
  _ ← emit (st_subheader "Map of Listings");
  lat ← lift (getitem filtered "latitude");
  mid_lat ← lift (mean lat);
  lon ← lift (getitem filtered "longitude");
  mid_lon ← lift (mean lon);
  emit (st_pydeck_chart filtered mid_lat mid_lon).

Definition tabs : list string := ["Data"; "Charts"; "Map"].

(** The whole script, top to bottom. *)
Definition script (fs : string → res DataFrame) (ui : UI) : St unit :=
  _ ← emit (st_set_page_config "NY Housing Explorer" "wide" "expanded");
  _ ← emit (st_title "NY Housing Data");
  data ← load_data fs dataset_path;
  _ ← (if df_empty data then st_stop else mret tt);
  _ ← emit (st_sidebar_header "Filters");
  b ← lift (getitem data "borough");
  names ← lift (strings_of b);
  let boroughs := "All" :: sorted_unique names in
  _ ← emit (st_sidebar_selectbox "Borough" boroughs);
  let selected_borough := pick_borough ui boroughs in
  p ← lift (getitem data "price");
  lo ← lift (series_min p);
  min_price ← lift (int_of_float lo);
  hi ← lift (series_max p);
  max_price ← lift (int_of_float hi);
  _ ← emit (st_sidebar_slider "Max Price" min_price max_price max_price);
  let price_threshold := pick_price ui min_price max_price max_price in
  filtered ← lift (filtered data (of_int price_threshold) selected_borough);
  _ ← emit (st_sidebar_radio "Navigate to" tabs);
  let page := pick_page ui tabs in
  if String.eqb page "Data" then page_data filtered selected_borough
  else if String.eqb page "Charts" then page_charts filtered
  else if String.eqb page "Map" then page_map filtered
  else mret tt.

End Script.

(** ** numpy's quicksort

    [sort_values] passes [kind="quicksort"] on to [ndarray.argsort].
    These are the generic (scalar) routines of numpy's [npysort] for
    [float64], [aquicksort_<npy::double_tag>] and [aheapsort_]: an
    introsort on an array of positions [tosort], by median-of-three
    partition, with an insertion sort once a partition has at most 17
    elements and a heap sort once the depth limit is used up.  (On
    processors with AVX-512 recent numpy builds hand [argsort] on
    [float64] to a vectorised routine instead; that one is not
    modelled.)  Pointers into [tosort] are offsets, the loops run on
    fuel that the length of the array bounds. *)

(** [npy::double_tag::less]: [a < b || (b != b && a == a)]. *)
Definition npy_less (a b : float) : bool :=
  flt a b || (is_nan b && negb (is_nan a)).

(** [*p], [*p = x] and [v[*p]] for a pointer [p] into [tosort]. *)
Definition load (tosort : list nat) (p : Z) : nat :=
  default 0 (tosort !! Z.to_nat p).

Definition store (tosort : list nat) (p : Z) (x : nat) : list nat :=
  <[Z.to_nat p := x]> tosort.

Definition value_at (v : list float) (tosort : list nat) (p : Z) : float :=
  default nan (v !! load tosort p).

Definition INTP_SWAP (tosort : list nat) (p q : Z) : list nat :=
  store (store tosort p (load tosort q)) q (load tosort p).

Definition SMALL_QUICKSORT : Z := 16.

(** [do { ++pi; } while (less(v[*pi], vp));] *)
Fixpoint scan_up (fuel : nat) (v : list float) (tosort : list nat) (vp : float)
    (pi : Z) : Z :=
  match fuel with
  | O => pi
  | S fuel =>
      let pi := (pi + 1)%Z in
      if npy_less (value_at v tosort pi) vp then scan_up fuel v tosort vp pi else pi
  end.

(** [do { --pj; } while (less(vp, v[*pj]));] *)
Fixpoint scan_down (fuel : nat) (v : list float) (tosort : list nat) (vp : float)
    (pj : Z) : Z :=
  match fuel with
  | O => pj
  | S fuel =>
      let pj := (pj - 1)%Z in
      if npy_less vp (value_at v tosort pj) then scan_down fuel v tosort vp pj else pj
  end.

(** The [for (;;)] loop of the partition; returns the array and [pi]. *)
Fixpoint partition_loop (fuel : nat) (v : list float) (tosort : list nat)
    (vp : float) (pi pj : Z) : list nat * Z :=
  match fuel with
  | O => (tosort, pi)
  | S fuel =>
      let pi := scan_up (length tosort) v tosort vp pi in
      let pj := scan_down (length tosort) v tosort vp pj in
      if (pi >=? pj)%Z then (tosort, pi)
      else partition_loop fuel v (INTP_SWAP tosort pi pj) vp pi pj
  end.

(** One round of [while ((pr - pl) > SMALL_QUICKSORT)]: the median of
    three, the partition around it, and the push of the larger side;
    returns the array, the bounds to go on with and the bounds pushed. *)
Definition partition (v : list float) (tosort : list nat) (pl pr : Z)
  : list nat * (Z * Z) * (Z * Z) :=
  let pm := (pl + Z.shiftr (pr - pl) 1)%Z in
  let tosort := if npy_less (value_at v tosort pm) (value_at v tosort pl)
                then INTP_SWAP tosort pm pl else tosort in
  let tosort := if npy_less (value_at v tosort pr) (value_at v tosort pm)
                then INTP_SWAP tosort pr pm else tosort in
  let tosort := if npy_less (value_at v tosort pm) (value_at v tosort pl)
                then INTP_SWAP tosort pm pl else tosort in
  let vp := value_at v tosort pm in
  let pi := pl in
  let pj := (pr - 1)%Z in
  let tosort := INTP_SWAP tosort pm pj in
  let '(tosort, pi) := partition_loop (length tosort) v tosort vp pi pj in
  let pk := (pr - 1)%Z in
  let tosort := INTP_SWAP tosort pi pk in
  if (pi - pl <? pr - pi)%Z
  then (tosort, (pl, (pi - 1)%Z), ((pi + 1)%Z, pr))
  else (tosort, ((pi + 1)%Z, pr), (pl, (pi - 1)%Z)).

(** [while ((pr - pl) > SMALL_QUICKSORT) { ...; *psdepth++ = --cdepth; }] *)
Fixpoint partition_while (fuel : nat) (v : list float) (tosort : list nat)
    (pl pr : Z) (stack : list (Z * Z * Z)) (cdepth : Z)
  : list nat * (Z * Z) * list (Z * Z * Z) * Z :=
  match fuel with
  | O => (tosort, (pl, pr), stack, cdepth)
  | S fuel =>
      if (pr - pl >? SMALL_QUICKSORT)%Z then
        let '(tosort, (pl, pr), pushed) := partition v tosort pl pr in
        let cdepth := (cdepth - 1)%Z in
        partition_while fuel v tosort pl pr ((pushed, cdepth) :: stack) cdepth
      else (tosort, (pl, pr), stack, cdepth)
  end.

(** [while (pj > pl && less(vp, v[*pk])) { *pj-- = *pk--; }]; returns
    the array and [pj]. *)
Fixpoint shift_right (fuel : nat) (v : list float) (tosort : list nat)
    (vp : float) (pl pj pk : Z) : list nat * Z :=
  match fuel with
  | O => (tosort, pj)
  | S fuel =>
      if (pj >? pl)%Z && npy_less vp (value_at v tosort pk)
      then shift_right fuel v (store tosort pj (load tosort pk)) vp pl
                       (pj - 1)%Z (pk - 1)%Z
      else (tosort, pj)
  end.

(** [for (pi = pl + 1; pi <= pr; ++pi) { ... }] *)
Fixpoint insertion_loop (fuel : nat) (v : list float) (tosort : list nat)
    (pl pr pi : Z) : list nat :=
  match fuel with
  | O => tosort
  | S fuel =>
      if (pi <=? pr)%Z then
        let vi := load tosort pi in
        let vp := default nan (v !! vi) in
        let '(tosort, pj) :=
          shift_right (length tosort) v tosort vp pl pi (pi - 1)%Z in
        insertion_loop fuel v (store tosort pj vi) pl pr (pi + 1)%Z
      else tosort
  end.

Definition insertion_sort (v : list float) (tosort : list nat) (pl pr : Z)
  : list nat :=
  insertion_loop (length tosort) v tosort pl pr (pl + 1)%Z.

(** [aheapsort_]: the array [a] is [tosort - 1], so that [a[1]] is the
    first element.  The sifting loop
    [for (i = .., j = ..; j <= n;) { ... }] returns the array and [i]. *)
Fixpoint sift (fuel : nat) (v : list float) (tosort : list nat) (a : Z)
    (tmp : nat) (n i j : Z) : list nat * Z :=
  match fuel with
  | O => (tosort, i)
  | S fuel =>
      if (j <=? n)%Z then
        let j := if (j <? n)%Z && npy_less (value_at v tosort (a + j))
                                           (value_at v tosort (a + j + 1))
                 then (j + 1)%Z else j in
        if npy_less (default nan (v !! tmp)) (value_at v tosort (a + j))
        then sift fuel v (store tosort (a + i) (load tosort (a + j))) a tmp n
                  j (j + j)%Z
        else (tosort, i)
      else (tosort, i)
  end.

(** [for (l = n >> 1; l > 0; --l) { ... }] *)
Fixpoint heapify (fuel : nat) (v : list float) (tosort : list nat) (a n l : Z)
  : list nat :=
  match fuel with
  | O => tosort
  | S fuel =>
      if (l >? 0)%Z then
        let tmp := load tosort (a + l) in
        let '(tosort, i) :=
          sift (length tosort) v tosort a tmp n l (Z.shiftl l 1) in
        heapify fuel v (store tosort (a + i) tmp) a n (l - 1)%Z
      else tosort
  end.

(** [for (; n > 1;) { ... }] *)
Fixpoint sort_down (fuel : nat) (v : list float) (tosort : list nat) (a n : Z)
  : list nat :=
  match fuel with
  | O => tosort
  | S fuel =>
      if (n >? 1)%Z then
        let tmp := load tosort (a + n) in
        let tosort := store tosort (a + n) (load tosort (a + 1)) in
        let n := (n - 1)%Z in
        let '(tosort, i) := sift (length tosort) v tosort a tmp n 1 2 in
        sort_down fuel v (store tosort (a + i) tmp) a n
      else tosort
  end.

Definition aheapsort (v : list float) (tosort : list nat) (start n : Z)
  : list nat :=
  let a := (start - 1)%Z in
  sort_down (length tosort) v
            (heapify (length tosort) v tosort a n (Z.shiftr n 1)) a n.

(** The outer [while (1)] of [aquicksort_], one segment a round. *)
Fixpoint aquicksort_loop (fuel : nat) (v : list float) (tosort : list nat)
    (pl pr : Z) (stack : list (Z * Z * Z)) (cdepth : Z) : list nat :=
  match fuel with
  | O => tosort
  | S fuel =>
      let '(tosort, stack) :=
        if (cdepth <? 0)%Z
        then (aheapsort v tosort pl (pr - pl + 1)%Z, stack)
        else
          let '(tosort, (pl, pr), stack, _) :=
            partition_while (length tosort) v tosort pl pr stack cdepth in
          (insertion_sort v tosort pl pr, stack) in
      match stack with
      | [] => tosort
      | ((pl, pr), cdepth) :: stack =>
          aquicksort_loop fuel v tosort pl pr stack cdepth
      end
  end.

(** [v.argsort(kind="quicksort")]: the positions [0 .. num-1], sorted by
    [aquicksort_] with the depth limit [npy_get_msb(num) * 2]. *)
Definition npy_aquicksort (v : list float) : list nat :=
  let num := Z.of_nat (length v) in
  aquicksort_loop (S (length v)) v (seq 0 (length v)) 0 (num - 1)%Z []
                  (Z.log2 num * 2)%Z.

(* ===================================================================== *)
(** * Vocabulary of the statements *)
(* ===================================================================== *)

Fixpoint drop_string (i : nat) (s : string) : string :=
  match i, s with
  | O, _ => s
  | S i', String _ s' => drop_string i' s'
  | S _, EmptyString => EmptyString
  end.

(** [a] occurs in [s] at position [i]. *)
Definition occurs_at (a : string) (i : nat) (s : string) : Prop :=
  i ≤ String.length s ∧ String.prefix a (drop_string i s) = true.

(** [s] contains one of [alts]. *)
Definition contains_one_of (alts : list string) (s : string) : Prop :=
  ∃ a i, a ∈ alts ∧ occurs_at a i s.

(** The quotient of two numeric cells. *)
Definition quotient_cell (a b : cell) : cell :=
  Num (match a, b with Num x, Num y => fdiv x y | _, _ => nan end).

(** What lines 34 to 39 make of one row of the renamed frame; [alias]
    tells whether the frame has a [propertysqft] column. *)
Definition derived_row (alias : bool) (r : Row) : Row :=
  let r1 := <["borough" := extract_cell borough_names (cell_at r "sublocality")]> r in
  let r2 := if alias then <["sqft" := cell_at r1 "propertysqft"]> r1 else r1 in
  <["price_per_sqft" := quotient_cell (cell_at r2 "price") (cell_at r2 "sqft")]> r2.

(** The column the floor area is read from: [propertysqft] when the
    frame has it, and otherwise a [sqft] column of its own. *)
Definition sqft_source (df0 : DataFrame) : string :=
  if has_column df0 "propertysqft" then "propertysqft" else "sqft".

(** The row-admission test of line 41. *)
Definition survives (r : Row) : bool :=
  forallb (λ c, notna (cell_at r c)) key_fields.

(** The two predicates of the filter, on one row. *)
Definition price_within (price_threshold : float) (r : Row) : bool :=
  match cell_at r "price" with
  | Num p => fle p price_threshold
  | Str _ => false
  end.

Definition in_borough (selected_borough : string) (r : Row) : bool :=
  match cell_at r "borough" with
  | Str b => String.eqb b selected_borough
  | Num _ => false
  end.

Definition keeps (price_threshold : float) (selected_borough : string) (r : Row)
  : bool :=
  price_within price_threshold r &&
  (String.eqb selected_borough "All" || in_borough selected_borough r).

(** A cleaned table: what [clean] returns on some raw table. *)
Definition cleaned (data : DataFrame) : Prop := ∃ raw, clean raw = Ok data.

(** What [argsort] promises on a list without NaN, whatever its
    algorithm: the positions of the list, each once, in an order that
    puts the values in non-decreasing order. *)
Definition argsort_correct (sort : list float → list nat) : Prop :=
  ∀ xs, Forall (λ x, is_nan x = false) xs →
    sort xs ≡ₚ seq 0 (length xs) ∧
    StronglySorted (λ a b, fle a b = true) (take_idx xs (sort xs)).

(** The price of a row of a table whose price column is numeric. *)
Definition price_of (r : Row) : float :=
  match cell_at r "price" with Num p => p | Str _ => nan end.


(** An insertion sort of the positions of a list by their values.
    [before x y] tells whether an element [x] that is being inserted goes
    in front of [y]; elements are inserted from the last to the first.
    With [<=] an element goes in front of the elements equal to it, which
    came later in the list: this algorithm is stable. *)
Fixpoint insert_by (before : float → float → bool) (x : nat * float)
    (l : list (nat * float)) : list (nat * float) :=
  match l with
  | [] => [x]
  | y :: l' =>
      if before x.2 y.2 then x :: y :: l' else y :: insert_by before x l'
  end.

Definition argsort_by (before : float → float → bool) (xs : list float)
  : list nat :=
  (foldr (insert_by before) [] (zip (seq 0 (length xs)) xs)).*1.

Definition argsort_insertion : list float → list nat := argsort_by fle.

(** A stable [argsort]: of two positions, the one that comes first in
    the result is the earlier position, unless its value is strictly
    smaller. *)
Definition argsort_stable (sort : list float → list nat) : Prop :=
  ∀ xs, Forall (λ x, is_nan x = false) xs →
    StronglySorted (λ i j, i < j ∨ ∃ a b, xs !! i = Some a ∧ xs !! j = Some b ∧
                                          flt a b = true) (sort xs).

(** The same for a ranking of the rows of a table by price: position [i]
    may be listed before position [j]. *)
Definition ties_in_row_order (ft : DataFrame) (ascending : bool) (i j : nat) : Prop :=
  i < j ∨ ∃ r1 r2, rows ft !! i = Some r1 ∧ rows ft !! j = Some r2 ∧
                   if ascending then flt (price_of r1) (price_of r2) = true
                   else flt (price_of r2) (price_of r1) = true.

(** The counts of the property types of a table, as line 111 takes
    them. *)
Definition type_counts_of (ft : DataFrame) : gmap cell Z :=
  value_counts ((λ r, cell_at r "type") <$> rows ft).

(** The rows whose type is present, and those of one given type. *)
Definition typed_rows (ft : DataFrame) : list Row :=
  List.filter (λ r, notna (cell_at r "type")) (rows ft).

Definition rows_of_type (ft : DataFrame) (k : cell) : list Row :=
  List.filter (λ r, notna (cell_at r "type")
                    && bool_decide (key_of (cell_at r "type") = k)) (rows ft).

(** The two tests of lines 113 and 114, as the script computes them: the
    binary64 quotient of the count by the total against the binary64
    literal 0.05. *)
Definition at_least_5_percent (count total : Z) : bool :=
  fle lit_0_05 (share count total).

Definition below_5_percent (count total : Z) : bool :=
  flt (share count total) lit_0_05.



(** A raw listing that has all it takes to be kept: a price, a latitude
    and a longitude that are not missing, and a sublocality in which a
    borough is found. *)
Definition complete_listing (r : Row) : bool :=
  notna (cell_at r "price") && notna (cell_at r "latitude") &&
  notna (cell_at r "longitude") &&
  notna (extract_cell borough_names (cell_at r "sublocality")).

(* ===================================================================== *)
(** * Example tables *)
(* ===================================================================== *)

(** A row as [read_csv] delivers it, under the headers of the data set. *)
Definition raw_listing (price sqft lat lon : Z) (sublocality type : cell) : Row :=
  list_to_map [("PRICE", Num (of_int price)); ("PROPERTYSQFT", Num (of_int sqft));
               ("LATITUDE", Num (of_int lat)); ("LONGITUDE", Num (of_int lon));
               ("SUBLOCALITY", sublocality); ("TYPE", type)].

Definition raw_columns : list string :=
  ["PRICE"; "PROPERTYSQFT"; "LATITUDE"; "LONGITUDE"; "SUBLOCALITY"; "TYPE"].

(** A row of a cleaned table. *)
Definition listing (price sqft lat lon : Z) (sublocality type borough : cell)
    (price_per_sqft : float) : Row :=
  list_to_map [("price", Num (of_int price)); ("propertysqft", Num (of_int sqft));
               ("latitude", Num (of_int lat)); ("longitude", Num (of_int lon));
               ("sublocality", sublocality); ("type", type);
               ("borough", borough); ("sqft", Num (of_int sqft));
               ("price_per_sqft", Num price_per_sqft)].

Definition clean_columns : list string :=
  ["price"; "propertysqft"; "latitude"; "longitude"; "sublocality"; "type";
   "borough"; "sqft"; "price_per_sqft"].

(** Three listings: one in Queens with no floor area, one in Manhattan,
    and one whose sublocality names no borough. *)
Definition ex_raw : DataFrame :=
  mkDataFrame raw_columns
    [raw_listing 100 0 40 (-73) (Str "Queens") (Str "Condo");
     raw_listing 500 10 40 (-73) (Str "Manhattan, NY") (Str "House");
     raw_listing 5 10 1 1 (Str "Unknown Place") (Str "House")].

Definition ex_queens : Row :=
  listing 100 0 40 (-73) (Str "Queens") (Str "Condo") (Str "Queens")
          (S754_infinity false).

Definition ex_manhattan : Row :=
  listing 500 10 40 (-73) (Str "Manhattan, NY") (Str "House") (Str "Manhattan")
          (of_int 50).

Definition ex_unknown : Row :=
  listing 5 10 1 1 (Str "Unknown Place") (Str "House") NaN
          (S754_finite false 4503599627370496 (-53)).

(** [ex_raw] after the derivation, and after the row admission. *)
Definition ex_derived : DataFrame :=
  mkDataFrame clean_columns [ex_queens; ex_manhattan; ex_unknown].

Definition ex_data : DataFrame := mkDataFrame clean_columns [ex_queens; ex_manhattan].

(** A file with no floor-area column at all. *)
Definition ex_raw_no_sqft : DataFrame :=
  mkDataFrame ["PRICE"; "LATITUDE"; "LONGITUDE"; "SUBLOCALITY"; "TYPE"]
    [list_to_map [("PRICE", Num (of_int 100)); ("LATITUDE", Num (of_int 40));
                  ("LONGITUDE", Num (of_int (-73))); ("SUBLOCALITY", Str "Queens");
                  ("TYPE", Str "Condo")]].

(** A file system that holds [ex_raw] under the path of the data set and
    nothing else. *)
Definition ex_fs (path : string) : res DataFrame :=
  if String.eqb path dataset_path then Ok ex_raw else Raise FileNotFoundError.

(** A file system that holds nothing. *)
Definition no_files (path : string) : res DataFrame := Raise FileNotFoundError.

(** Two listings at the same price. *)
Definition ex_tie_a : Row :=
  listing 300 10 40 (-73) (Str "Queens") (Str "Condo") (Str "Queens") (of_int 30).

Definition ex_tie_b : Row :=
  listing 300 10 40 (-73) (Str "Brooklyn") (Str "House") (Str "Brooklyn") (of_int 30).

Definition ex_ties : DataFrame := mkDataFrame clean_columns [ex_tie_a; ex_tie_b].

Definition ex_raw_ties : DataFrame :=
  mkDataFrame raw_columns
    [raw_listing 300 10 40 (-73) (Str "Queens") (Str "Condo");
     raw_listing 300 10 40 (-73) (Str "Brooklyn") (Str "House")].




(** Two listings, one of them of a type named "Other"; and two
    listings, one of them without a type. *)
Definition ex_raw_other : DataFrame :=
  mkDataFrame raw_columns
    [raw_listing 300 10 40 (-73) (Str "Queens") (Str "Other");
     raw_listing 300 10 40 (-73) (Str "Queens") (Str "Condo")].

Definition ex_other : DataFrame :=
  mkDataFrame clean_columns
    [listing 300 10 40 (-73) (Str "Queens") (Str "Other") (Str "Queens") (of_int 30);
     listing 300 10 40 (-73) (Str "Queens") (Str "Condo") (Str "Queens") (of_int 30)].

Definition ex_raw_untyped : DataFrame :=
  mkDataFrame raw_columns
    [raw_listing 300 10 40 (-73) (Str "Queens") (Str "Condo");
     raw_listing 300 10 40 (-73) (Str "Queens") NaN].

Definition ex_untyped : DataFrame :=
  mkDataFrame clean_columns
    [listing 300 10 40 (-73) (Str "Queens") (Str "Condo") (Str "Queens") (of_int 30);
     listing 300 10 40 (-73) (Str "Queens") NaN (Str "Queens") (of_int 30)].


(** A user who leaves every widget at its default. *)
Definition ex_ui : UI :=
  {| pick_borough := λ _, "All";
     pick_price := λ _ _ value, value;
     pick_page := λ _, "Data" |}.

(** A file whose one listing has no sublocality: the column is read as
    numbers. *)
Definition ex_raw_unnamed : DataFrame :=
  mkDataFrame raw_columns [raw_listing 100 10 40 (-73) NaN (Str "Condo")].

(** A file whose one listing names no borough. *)
Definition ex_raw_nowhere : DataFrame :=
  mkDataFrame raw_columns
    [raw_listing 5 10 1 1 (Str "Unknown Place") (Str "House")].

(** A file system that fails to decode every file. *)
Definition unreadable_files (path : string) : res DataFrame := Raise ValueError.

(** A file without a TYPE column, and its cleaned table. *)
Definition ex_raw_no_type : DataFrame :=
  mkDataFrame ["PRICE"; "PROPERTYSQFT"; "LATITUDE"; "LONGITUDE"; "SUBLOCALITY"]
    [list_to_map [("PRICE", Num (of_int 100)); ("PROPERTYSQFT", Num (of_int 10));
                  ("LATITUDE", Num (of_int 40)); ("LONGITUDE", Num (of_int (-73)));
                  ("SUBLOCALITY", Str "Queens")]].

Definition ex_no_type : DataFrame :=
  mkDataFrame ["price"; "propertysqft"; "latitude"; "longitude"; "sublocality";
               "borough"; "sqft"; "price_per_sqft"]
    [list_to_map [("price", Num (of_int 100)); ("propertysqft", Num (of_int 10));
                  ("latitude", Num (of_int 40)); ("longitude", Num (of_int (-73)));
                  ("sublocality", Str "Queens"); ("borough", Str "Queens");
                  ("sqft", Num (of_int 10)); ("price_per_sqft", Num (of_int 10))]].

(** A listing priced 100.5, and the cleaned table of a file that holds
    it alone. *)
Definition ex_price_100_5 : float := fdiv (of_int 201) (of_int 2).

Definition ex_raw_fraction : DataFrame :=
  mkDataFrame raw_columns
    [list_to_map [("PRICE", Num ex_price_100_5); ("PROPERTYSQFT", Num (of_int 10));
                  ("LATITUDE", Num (of_int 40)); ("LONGITUDE", Num (of_int (-73)));
                  ("SUBLOCALITY", Str "Queens"); ("TYPE", Str "Condo")]].

Definition ex_fraction_row : Row :=
  list_to_map [("price", Num ex_price_100_5); ("propertysqft", Num (of_int 10));
               ("latitude", Num (of_int 40)); ("longitude", Num (of_int (-73)));
               ("sublocality", Str "Queens"); ("type", Str "Condo");
               ("borough", Str "Queens"); ("sqft", Num (of_int 10));
               ("price_per_sqft", Num (fdiv ex_price_100_5 (of_int 10)))].

Definition ex_fraction : DataFrame := mkDataFrame clean_columns [ex_fraction_row].

(* ===================================================================== *)
(** * Properties *)
(* ===================================================================== *)

(** ** The result monad *)

Lemma bind_Ok {A B} (m : res A) (f : A → res B) (b : B) :
  (m ≫= f) = Ok b → ∃ a, m = Ok a ∧ f a = Ok b.
Proof. destruct m as [a|e]; simpl; [eauto | discriminate]. Qed.

Ltac inv_bind H :=
  let a := fresh "a" in
  let Ha := fresh "Ha" in
  apply bind_Ok in H; destruct H as (a & Ha & H).

Ltac res_step := unfold mbind, res_bind; cbv beta iota.

Lemma traverse_total {A B} (f : A → res B) (g : A → B) (l : list A) :
  Forall (λ x, f x = Ok (g x)) l → traverse f l = Ok (g <$> l).
Proof.
  induction 1 as [|x l Hx _ IH]; simpl; [done|].
  rewrite Hx; simpl. rewrite IH; done.
Qed.

(** ** Regular-expression search *)

Lemma find_first {A} (f : A → bool) (l : list A) (a : A) :
  List.find f l = Some a →
  ∃ k, l !! k = Some a ∧ f a = true ∧
       ∀ k' b, k' < k → l !! k' = Some b → f b = false.
Proof.
  induction l as [|x l IH]; simpl; [discriminate|].
  destruct (f x) eqn:Hx.
  - intros [= ->]. exists 0. repeat split; auto. intros k' b Hk; lia.
  - intros H. destruct (IH H) as (k & Hk & Ha & Hmin).
    exists (S k). repeat split; auto.
    intros [|k'] b Hlt Hb; simpl in Hb.
    + by injection Hb as <-.
    + apply (Hmin k' b); [lia | done].
Qed.

Lemma find_none_elem {A} (f : A → bool) (l : list A) :
  List.find f l = None → ∀ b, b ∈ l → f b = false.
Proof.
  intros H b Hb. apply (List.find_none f l H). by apply list_elem_of_In.
Qed.

Lemma occurs_at_0 (a s : string) :
  occurs_at a 0 s ↔ String.prefix a s = true.
Proof. unfold occurs_at; simpl. split; [by intros [_ H] | split; [lia | done]]. Qed.

Lemma occurs_at_S (a : string) (i : nat) (c : ascii) (s : string) :
  occurs_at a (S i) (String c s) ↔ occurs_at a i s.
Proof. unfold occurs_at; simpl. split; intros [H1 H2]; split; auto; lia. Qed.

Lemma occurs_at_empty (a : string) (i : nat) :
  occurs_at a i EmptyString → i = 0.
Proof. unfold occurs_at; simpl. intros [H _]; lia. Qed.

(** The search returns the first alternative, in the order of [alts],
    that occurs at the leftmost position where one occurs; it fails only
    when none occurs anywhere. *)
Lemma re_search_spec (alts : list string) (s : string) :
  match re_search alts s with
  | Some a =>
      ∃ i k, alts !! k = Some a ∧ occurs_at a i s ∧
        (∀ j b, j < i → b ∈ alts → ¬ occurs_at b j s) ∧
        (∀ k' b, k' < k → alts !! k' = Some b → ¬ occurs_at b i s)
  | None => ∀ i b, b ∈ alts → ¬ occurs_at b i s
  end.
Proof.
  induction s as [|c s IH]; cbn [re_search].
  - destruct (List.find _ alts) as [a|] eqn:Hf.
    + apply find_first in Hf as (k & Hk & Ha & Hmin).
      exists 0, k. split; [done|]. split; [by apply occurs_at_0|].
      split; [intros j b Hj; lia|].
      intros k' b Hlt Hb Hocc. apply occurs_at_0 in Hocc.
      rewrite (Hmin k' b Hlt Hb) in Hocc. discriminate.
    + intros i b Hb Hocc. pose proof (occurs_at_empty _ _ Hocc) as ->.
      apply occurs_at_0 in Hocc.
      rewrite (find_none_elem _ _ Hf b Hb) in Hocc. discriminate.
  - destruct (List.find _ alts) as [a|] eqn:Hf.
    + apply find_first in Hf as (k & Hk & Ha & Hmin).
      exists 0, k. split; [done|]. split; [by apply occurs_at_0|].
      split; [intros j b Hj; lia|].
      intros k' b Hlt Hb Hocc. apply occurs_at_0 in Hocc.
      rewrite (Hmin k' b Hlt Hb) in Hocc. discriminate.
    + destruct (re_search alts s) as [a|].
      * destruct IH as (i & k & Hk & Hocc & Hleft & Hprio).
        exists (S i), k. split; [done|]. split; [by apply occurs_at_S|]. split.
        -- intros [|j] b Hj Hb Hoccb.
           ++ apply occurs_at_0 in Hoccb.
              rewrite (find_none_elem _ _ Hf b Hb) in Hoccb. discriminate.
           ++ apply occurs_at_S in Hoccb. apply (Hleft j b); [lia | done | done].
        -- intros k' b Hlt Hb Hoccb. apply occurs_at_S in Hoccb.
           by apply (Hprio k' b).
      * intros [|i] b Hb Hocc.
        -- apply occurs_at_0 in Hocc.
           rewrite (find_none_elem _ _ Hf b Hb) in Hocc. discriminate.
        -- apply occurs_at_S in Hocc. by apply (IH i b).
Qed.

Lemma re_search_Some_elem (alts : list string) (s a : string) :
  re_search alts s = Some a → a ∈ alts ∧ ∃ i, occurs_at a i s.
Proof.
  intros H. pose proof (re_search_spec alts s) as Hs. rewrite H in Hs.
  destruct Hs as (i & k & Hk & Hocc & _).
  split; [by eapply list_elem_of_lookup_2 | eauto].
Qed.

(** C9. Whenever the sublocality contains at least one of the five
    borough names, the extraction returns a borough name that occurs at
    the leftmost position where any of the five occurs, and no name that
    comes earlier in the order Manhattan, Brooklyn, Queens, The Bronx,
    Staten Island occurs at that same position. *)
Theorem extract_leftmost_first (s : string) :
  contains_one_of borough_names s →
  ∃ a i k,
    extract_cell borough_names (Str s) = Str a ∧
    borough_names !! k = Some a ∧
    occurs_at a i s ∧
    (∀ j b, j < i → b ∈ borough_names → ¬ occurs_at b j s) ∧
    (∀ k' b, k' < k → borough_names !! k' = Some b → ¬ occurs_at b i s).
Proof.
  intros (b & j & Hb & Hocc).
  pose proof (re_search_spec borough_names s) as Hs.
  unfold extract_cell.
  destruct (re_search borough_names s) as [a|].
  - destruct Hs as (i & k & Hk & Ha & Hleft & Hprio). by exists a, i, k.
  - by destruct (Hs j b Hb).
Qed.

Lemma extract_leftmost_first_witness :
  contains_one_of borough_names "The Bronx, Queens" ∧
  ∃ a i k,
    extract_cell borough_names (Str "The Bronx, Queens") = Str a ∧
    borough_names !! k = Some a ∧
    occurs_at a i "The Bronx, Queens" ∧
    (∀ j b, j < i → b ∈ borough_names → ¬ occurs_at b j "The Bronx, Queens") ∧
    (∀ k' b, k' < k → borough_names !! k' = Some b →
             ¬ occurs_at b i "The Bronx, Queens").
Proof.
  assert (H : contains_one_of borough_names "The Bronx, Queens").
  { exists "Queens", 11. split.
    - apply (bool_decide_unpack _). vm_compute. exact I.
    - split; [simpl; lia | reflexivity]. }
  split; [exact H|].
  exact (extract_leftmost_first "The Bronx, Queens" H).
Defined.

(** ** Frames *)

Lemma getitem_Ok (df : DataFrame) (c : string) (s : Series) :
  getitem df c = Ok s →
  has_column df c = true ∧ s = (λ r, cell_at r c) <$> rows df.
Proof.
  unfold getitem. destruct (has_column df c); [|discriminate].
  by intros [= <-].
Qed.

Lemma getitem_has (df : DataFrame) (c : string) :
  has_column df c = true → getitem df c = Ok ((λ r, cell_at r c) <$> rows df).
Proof. unfold getitem. by intros ->. Qed.

Lemma rows_setitem_fmap (df : DataFrame) (c : string) (f : Row → cell) :
  rows (setitem df c (f <$> rows df)) = (λ r, <[c := f r]> r) <$> rows df.
Proof.
  unfold setitem; simpl. rewrite zip_with_fmap_r, zip_with_diag. done.
Qed.

Lemma has_column_setitem (df : DataFrame) (c c' : string) (s : Series) :
  has_column (setitem df c s) c' = has_column df c' || bool_decide (c' = c).
Proof.
  unfold setitem. destruct (has_column df c) eqn:Hc; unfold has_column in *; simpl.
  - apply bool_decide_eq_true in Hc.
    destruct (bool_decide (c' = c)) eqn:He; [|by rewrite orb_false_r].
    apply bool_decide_eq_true in He as ->. rewrite orb_true_r.
    by apply bool_decide_eq_true.
  - apply eq_true_iff_eq. rewrite orb_true_iff, !bool_decide_eq_true.
    rewrite elem_of_app, list_elem_of_singleton. done.
Qed.

Lemma str_accessor_Ok (s s' : Series) : str_accessor s = Ok s' → s' = s.
Proof.
  unfold str_accessor. destruct s; [by intros [= <-]|].
  destruct (existsb _ _); [by intros [= <-] | discriminate].
Qed.

Lemma truediv_fmap_Ok {A} (f g : A → cell) (l : list A) (s : Series) :
  truediv (f <$> l) (g <$> l) = Ok s →
  Forall (λ r, ∃ x y, f r = Num x ∧ g r = Num y) l ∧
  s = (λ r, quotient_cell (f r) (g r)) <$> l.
Proof.
  unfold truediv. revert s. induction l as [|r l IH]; intros s H; simpl in H.
  - injection H as <-. split; [constructor | done].
  - inv_bind H. inv_bind H. injection H as <-.
    destruct (IH _ Ha0) as [HF ->].
    unfold truediv_cell in Ha.
    destruct (f r) as [x|] eqn:Hf; [|discriminate].
    destruct (g r) as [y|] eqn:Hg; [|discriminate].
    injection Ha as <-. split.
    + constructor; eauto.
    + simpl. unfold quotient_cell. by rewrite Hf, Hg.
Qed.

Lemma truediv_fmap_total {A} (f g : A → cell) (l : list A) :
  Forall (λ r, ∃ x y, f r = Num x ∧ g r = Num y) l →
  truediv (f <$> l) (g <$> l) = Ok ((λ r, quotient_cell (f r) (g r)) <$> l).
Proof.
  unfold truediv. induction 1 as [|r l (x & y & Hx & Hy) _ IH]; csimpl; [done|].
  rewrite Hx, Hy; csimpl. rewrite IH; csimpl. done.
Qed.

(** ** [load_data] *)

(** What a successful derivation (lines 32 to 39) has done. *)
Lemma derive_Ok (raw df : DataFrame) :
  derive raw = Ok df →
  let df0 := rename str_lower raw in
  let alias := has_column df0 "propertysqft" in
  has_column df0 "sublocality" = true ∧
  has_column df0 "price" = true ∧
  alias || has_column df0 "sqft" = true ∧
  rows df = derived_row alias <$> rows df0 ∧
  Forall (λ r, ∃ x y, cell_at r "price" = Num x ∧ cell_at r "sqft" = Num y ∧
                      cell_at r "price_per_sqft" = Num (fdiv x y)) (rows df) ∧
  (∀ c, has_column df c =
        has_column df0 c || bool_decide (c = "borough")
        || (alias && bool_decide (c = "sqft")) || bool_decide (c = "price_per_sqft")).
Proof.
  unfold derive. intros H. cbv zeta in *.
  set (df0 := rename str_lower raw) in *. set (alias := has_column df0 "propertysqft").
  inv_bind H. apply getitem_Ok in Ha as [Hsub ->].
  inv_bind H. apply str_accessor_Ok in Ha as ->.
  unfold str_extract in H. rewrite <- list_fmap_compose in H.
  inv_bind H.
  rewrite has_column_setitem in Ha. fold alias in Ha.
  replace (bool_decide ("propertysqft" = "borough")) with false in Ha by done.
  rewrite orb_false_r in Ha.
  set (df1 := setitem df0 "borough" _) in Ha.
  assert (Hr1 : rows df1 = (λ r, <["borough" := extract_cell borough_names (cell_at r "sublocality")]> r) <$> rows df0).
  { unfold df1. by rewrite rows_setitem_fmap. }
  assert (Hc1 : ∀ c, has_column df1 c = has_column df0 c || bool_decide (c = "borough")).
  { intros c. unfold df1. by rewrite has_column_setitem. }
  assert (Ha' : rows a = (λ r, if alias then <["sqft" := cell_at r "propertysqft"]> r else r) <$> rows df1
                ∧ ∀ c, has_column a c = has_column df1 c || (alias && bool_decide (c = "sqft"))).
  { destruct alias.
    - inv_bind Ha. apply getitem_Ok in Ha0 as [_ ->]. injection Ha as <-.
      split; [by rewrite rows_setitem_fmap | intros c; by rewrite has_column_setitem].
    - injection Ha as <-. split; [by rewrite list_fmap_id | intros c; by rewrite orb_false_r]. }
  destruct Ha' as [Hr2 Hc2]. clear Ha.
  inv_bind H. apply getitem_Ok in Ha as [Hprice ->].
  inv_bind H. apply getitem_Ok in Ha as [Hsqft ->].
  inv_bind H. apply truediv_fmap_Ok in Ha as [Hnum ->]. injection H as <-.
  rewrite rows_setitem_fmap.
  rewrite Hc2, Hc1 in Hprice, Hsqft.
  replace (bool_decide ("price" = "borough")) with false in Hprice by done.
  replace (bool_decide ("price" = "sqft")) with false in Hprice by done.
  replace (bool_decide ("sqft" = "borough")) with false in Hsqft by done.
  replace (bool_decide ("sqft" = "sqft")) with true in Hsqft by done.
  rewrite andb_false_r, !orb_false_r in Hprice. rewrite orb_false_r, andb_true_r in Hsqft.
  split; [done|]. split; [done|]. split; [by rewrite orb_comm|].
  split; [|split].
  - rewrite Hr2, Hr1, <- !list_fmap_compose. apply list_fmap_ext.
    intros i r _. unfold derived_row; simpl. by destruct alias.
  - rewrite Forall_fmap. eapply Forall_impl; [exact Hnum|].
    intros r (x & y & Hx & Hy); simpl. exists x, y.
    unfold cell_at. rewrite !lookup_insert_ne by done. rewrite lookup_insert_eq. simpl.
    unfold cell_at in Hx, Hy. rewrite Hx, Hy. done.
  - intros c. rewrite has_column_setitem, Hc2, Hc1. done.
Qed.
Lemma dropna_Ok (df data : DataFrame) (subset : list string) :
  dropna df subset = Ok data →
  (∀ c, c ∈ subset → has_column df c = true) ∧
  columns data = columns df ∧
  rows data = List.filter (λ r, forallb (λ c, notna (cell_at r c)) subset) (rows df).
Proof.
  unfold dropna. destruct (List.find _ subset) eqn:Hf; [discriminate|].
  intros [= <-]. split; [|done].
  intros c Hc. pose proof (find_none_elem _ _ Hf c Hc) as H.
  by apply negb_false_iff in H.
Qed.

Lemma clean_Ok (raw data : DataFrame) :
  clean raw = Ok data →
  ∃ df, derive raw = Ok df ∧
        (∀ c, has_column data c = has_column df c) ∧
        (∀ c, c ∈ key_fields → has_column data c = true) ∧
        rows data = List.filter survives (rows df).
Proof.
  unfold clean. intros H. inv_bind H. exists a. split; [done|].
  apply dropna_Ok in H as (Hk & Hc & Hr).
  unfold has_column. rewrite Hc. repeat split; auto.
Qed.

Lemma load_data_Ok (fs : string → res DataFrame) (filepath : string)
    (data : DataFrame) (evs : list event) :
  load_data fs filepath = (Ok data, evs) →
  (fs filepath = Raise FileNotFoundError ∧ data = empty_frame) ∨
  (∃ raw, fs filepath = Ok raw ∧ clean raw = Ok data ∧ evs = []).
Proof.
  unfold load_data. destruct (fs filepath) as [raw|e].
  - intros [= H <-]. right. eauto.
  - destruct e; try discriminate. intros [= <- <-]. by left.
Qed.

Lemma not_contains_unknown_place :
  ¬ contains_one_of borough_names "Unknown Place".
Proof.
  intros (a & i & Ha & Hocc).
  pose proof (re_search_spec borough_names "Unknown Place") as Hs.
  vm_compute re_search in Hs. by apply (Hs i a).
Qed.

Lemma elem_of_filter_bool {A} (f : A → bool) (l : list A) (x : A) :
  x ∈ List.filter f l ↔ x ∈ l ∧ f x = true.
Proof. rewrite !list_elem_of_In. apply List.filter_In. Qed.

Lemma extract_cell_notna (alts : list string) (c : cell) :
  notna (extract_cell alts c) = true →
  ∃ s a, c = Str s ∧ re_search alts s = Some a ∧ extract_cell alts c = Str a.
Proof.
  destruct c as [x|s]; cbn; [discriminate|].
  destruct (re_search alts s) as [a|] eqn:Hre; cbn; [by exists s, a | discriminate].
Qed.

Lemma derived_row_lookup (alias : bool) (r : Row) :
  cell_at (derived_row alias r) "borough"
    = extract_cell borough_names (cell_at r "sublocality") ∧
  cell_at (derived_row alias r) "sublocality" = cell_at r "sublocality" ∧
  cell_at (derived_row alias r) "price" = cell_at r "price" ∧
  cell_at (derived_row alias r) "latitude" = cell_at r "latitude" ∧
  cell_at (derived_row alias r) "longitude" = cell_at r "longitude" ∧
  cell_at (derived_row alias r) "type" = cell_at r "type" ∧
  cell_at (derived_row alias r) "sqft"
    = cell_at r (if alias then "propertysqft" else "sqft") ∧
  cell_at (derived_row alias r) "price_per_sqft"
    = quotient_cell (cell_at r "price")
                    (cell_at r (if alias then "propertysqft" else "sqft")).
Proof.
  unfold derived_row, cell_at.
  destruct alias; simpl; repeat split;
    repeat first [rewrite lookup_insert_eq | rewrite lookup_insert_ne by done]; done.
Qed.

(** C1. Every row of the table that [load_data] returns has a price, a
    latitude and a longitude that are not missing, and a borough that is
    one of the five names; the borough was found in the row's
    sublocality, so a row whose sublocality contains none of the five
    names (such as "Unknown Place") is not in the table. *)
Theorem cleaned_rows_complete (fs : string → res DataFrame) (filepath : string)
    (data : DataFrame) (evs : list event) (r : Row) :
  load_data fs filepath = (Ok data, evs) →
  r ∈ rows data →
  notna (cell_at r "price") = true ∧
  notna (cell_at r "latitude") = true ∧
  notna (cell_at r "longitude") = true ∧
  ∃ b s, cell_at r "borough" = Str b ∧ b ∈ borough_names ∧
         cell_at r "sublocality" = Str s ∧
         contains_one_of borough_names s ∧
         s ≠ "Unknown Place".
Proof.
  intros H Hr. apply load_data_Ok in H as [[_ ->] | (raw & _ & H & _)].
  { by apply elem_of_nil in Hr. }
  apply clean_Ok in H as (df & Hd & _ & _ & Hrows).
  rewrite Hrows in Hr. apply elem_of_filter_bool in Hr as [Hr Hadm].
  unfold survives, key_fields in Hadm. simpl in Hadm.
  rewrite !andb_true_iff in Hadm. destruct Hadm as (Hp & Hla & Hlo & Hb & _).
  repeat (split; [done|]).
  pose proof (derive_Ok _ _ Hd) as (_ & _ & _ & Hrows' & _).
  rewrite Hrows' in Hr. apply list_elem_of_fmap in Hr as (r0 & -> & _).
  destruct (derived_row_lookup (has_column (rename str_lower raw) "propertysqft") r0)
    as (Hbor & Hsub & _).
  rewrite Hbor in Hb |- *. rewrite Hsub.
  apply extract_cell_notna in Hb as (s & a & Hs & Hre & ->).
  apply re_search_Some_elem in Hre as [Ha [i Hocc]].
  exists a, s. repeat split; try done.
  - by exists a, i.
  - intros ->. apply not_contains_unknown_place. by exists a, i.
Qed.

Lemma cleaned_rows_complete_witness :
  load_data ex_fs dataset_path = (Ok ex_data, []) ∧
  ex_queens ∈ rows ex_data ∧
  notna (cell_at ex_queens "price") = true ∧
  notna (cell_at ex_queens "latitude") = true ∧
  notna (cell_at ex_queens "longitude") = true ∧
  ∃ b s, cell_at ex_queens "borough" = Str b ∧ b ∈ borough_names ∧
         cell_at ex_queens "sublocality" = Str s ∧
         contains_one_of borough_names s ∧
         s ≠ "Unknown Place".
Proof.
  assert (H : load_data ex_fs dataset_path = (Ok ex_data, [])) by (vm_compute; reflexivity).
  assert (Hr : ex_queens ∈ rows ex_data) by (simpl; apply list_elem_of_here).
  split; [exact H|]. split; [exact Hr|].
  exact (cleaned_rows_complete ex_fs dataset_path ex_data [] ex_queens H Hr).
Defined.

(** ** The price per square foot *)
Lemma str_accessor_text {A} (f : A → cell) (l : list A) :
  l = [] ∨ (∃ r, r ∈ l ∧ is_str (f r) = true) →
  str_accessor (f <$> l) = Ok (f <$> l).
Proof.
  intros [-> | (r & Hr & Hs)]; [done|].
  unfold str_accessor. destruct (f <$> l) eqn:Hl; [done|].
  rewrite <- Hl. 
  assert (He : existsb is_str (f <$> l) = true).
  { apply existsb_exists. exists (f r). split; [|done].
    apply list_elem_of_In, list_elem_of_fmap. eauto. }
  by rewrite He.
Qed.

Lemma derive_total (raw : DataFrame) :
  let df0 := rename str_lower raw in
  has_column df0 "sublocality" = true →
  rows df0 = [] ∨ (∃ r, r ∈ rows df0 ∧ is_str (cell_at r "sublocality") = true) →
  has_column df0 "price" = true →
  has_column df0 (sqft_source df0) = true →
  (∀ r, r ∈ rows df0 →
        is_str (cell_at r "price") = false ∧
        is_str (cell_at r (sqft_source df0)) = false) →
  ∃ df, derive raw = Ok df.
Proof.
  cbv zeta. set (df0 := rename str_lower raw).
  intros Hsub Htext Hprice Hsrc Hnum.
  unfold derive. fold df0. cbv zeta.
  rewrite (getitem_has _ _ Hsub); res_step.
  rewrite (str_accessor_text _ _ Htext); res_step.
  unfold str_extract. rewrite <- list_fmap_compose.
  rewrite has_column_setitem.
  replace (bool_decide ("propertysqft" = "borough")) with false by done.
  rewrite orb_false_r.
  set (df1 := setitem df0 "borough" _).
  assert (Hr1 : rows df1 = (λ r, <["borough" := extract_cell borough_names (cell_at r "sublocality")]> r) <$> rows df0).
  { unfold df1. by rewrite rows_setitem_fmap. }
  assert (Hc1 : ∀ c, has_column df1 c = has_column df0 c || bool_decide (c = "borough")).
  { intros c. unfold df1. by rewrite has_column_setitem. }
  unfold sqft_source in *.
  destruct (has_column df0 "propertysqft") eqn:Halias.
  - rewrite (getitem_has df1 "propertysqft") by (by rewrite Hc1, Halias). res_step.
    set (a := setitem df1 "sqft" _).
    assert (Hra : rows a = (λ r, <["sqft" := cell_at r "propertysqft"]> r) <$> rows df1).
    { unfold a. by rewrite rows_setitem_fmap. }
    rewrite (getitem_has a "price") by (unfold a; by rewrite has_column_setitem, Hc1, Hprice).
    res_step.
    rewrite (getitem_has a "sqft") by (unfold a; rewrite has_column_setitem; by rewrite orb_true_r).
    res_step. rewrite truediv_fmap_total; [res_step; eauto|].
    rewrite Hra, Hr1, <- list_fmap_compose, Forall_fmap. apply Forall_forall.
    intros r Hr. destruct (Hnum r Hr) as [Hp Hs]. simpl. unfold cell_at in *.
    rewrite !lookup_insert_ne by done. rewrite lookup_insert_eq. simpl.
    rewrite !lookup_insert_ne by done.
    destruct (default NaN (r !! "price")); [|discriminate].
    destruct (default NaN (r !! "propertysqft")); [|discriminate]. eauto.
  - res_step.
    rewrite (getitem_has df1 "price") by (by rewrite Hc1, Hprice). res_step.
    rewrite (getitem_has df1 "sqft") by (by rewrite Hc1, Hsrc). res_step.
    rewrite truediv_fmap_total; [res_step; eauto|].
    rewrite Hr1, Forall_fmap. apply Forall_forall.
    intros r Hr. destruct (Hnum r Hr) as [Hp Hs]. simpl. unfold cell_at in *.
    rewrite !lookup_insert_ne by done.
    destruct (default NaN (r !! "price")); [|discriminate].
    destruct (default NaN (r !! "sqft")); [|discriminate]. eauto.
Qed.

Lemma fdiv_nan_r (p s : float) : is_nan s = true → is_nan (fdiv p s) = true.
Proof. destruct s; try discriminate. by destruct p. Qed.

Lemma fdiv_zero_r (p s : float) :
  is_zero s = true →
  if is_zero p || is_nan p then is_nan (fdiv p s) = true
  else is_inf (fdiv p s) = true.
Proof. destruct s; try discriminate. by destruct p. Qed.

(** C3 (amended). On a raw table whose lower-cased column labels are
    distinct and that has a text sublocality column, a price column and
    a floor-area column (propertysqft, or else sqft), with numbers in the
    price and floor-area cells, the derivation raises no error and gives
    every row price_per_sqft = price / sqft, the binary64 quotient.  The
    quotient is NaN when sqft is missing; when sqft is zero it is NaN if
    price is zero or missing, and an infinity otherwise. *)
Theorem price_per_sqft_quotient (raw : DataFrame) :
  let df0 := rename str_lower raw in
  NoDup (columns df0) →
  has_column df0 "sublocality" = true →
  rows df0 = [] ∨ (∃ r, r ∈ rows df0 ∧ is_str (cell_at r "sublocality") = true) →
  has_column df0 "price" = true →
  has_column df0 (sqft_source df0) = true →
  (∀ r, r ∈ rows df0 →
        is_str (cell_at r "price") = false ∧
        is_str (cell_at r (sqft_source df0)) = false) →
  ∃ df, derive raw = Ok df ∧
    Forall2 (λ r0 r, ∃ p s,
      cell_at r0 "price" = Num p ∧ cell_at r0 (sqft_source df0) = Num s ∧
      cell_at r "price" = Num p ∧ cell_at r "sqft" = Num s ∧
      cell_at r "price_per_sqft" = Num (fdiv p s) ∧
      (is_nan s = true → is_nan (fdiv p s) = true) ∧
      (is_zero s = true →
         if is_zero p || is_nan p then is_nan (fdiv p s) = true
         else is_inf (fdiv p s) = true))
      (rows df0) (rows df).
Proof.
  cbv zeta. intros _ Hsub Htext Hprice Hsrc Hnum.
  destruct (derive_total raw Hsub Htext Hprice Hsrc Hnum) as [df Hd].
  exists df. split; [done|].
  pose proof (derive_Ok _ _ Hd) as (_ & _ & _ & -> & _).
  apply Forall2_fmap_r, Forall_Forall2_diag, Forall_forall.
  intros r0 Hr0. unfold compose. destruct (Hnum r0 Hr0) as [Hp Hs].
  destruct (derived_row_lookup (has_column (rename str_lower raw) "propertysqft") r0)
    as (_ & _ & Hp' & _ & _ & _ & Hs' & Hq).
  fold (sqft_source (rename str_lower raw)) in Hs', Hq.
  rewrite Hp', Hs', Hq.
  destruct (cell_at r0 "price") as [p|]; [|discriminate].
  destruct (cell_at r0 (sqft_source _)) as [s|]; [|discriminate].
  exists p, s. repeat (split; [done|]).
  split; [apply fdiv_nan_r | apply fdiv_zero_r].
Qed.

Lemma price_per_sqft_quotient_witness :
  ∃ df, derive ex_raw = Ok df ∧
    Forall2 (λ r0 r, ∃ p s,
      cell_at r0 "price" = Num p ∧
      cell_at r0 (sqft_source (rename str_lower ex_raw)) = Num s ∧
      cell_at r "price" = Num p ∧ cell_at r "sqft" = Num s ∧
      cell_at r "price_per_sqft" = Num (fdiv p s) ∧
      (is_nan s = true → is_nan (fdiv p s) = true) ∧
      (is_zero s = true →
         if is_zero p || is_nan p then is_nan (fdiv p s) = true
         else is_inf (fdiv p s) = true))
      (rows (rename str_lower ex_raw)) (rows df).
Proof.
  apply (price_per_sqft_quotient ex_raw).
  - apply (bool_decide_unpack _). vm_compute. exact I.
  - reflexivity.
  - right. eexists. split; [apply list_elem_of_here | reflexivity].
  - reflexivity.
  - reflexivity.
  - intros r Hr. simpl in Hr.
    repeat (apply elem_of_cons in Hr as [->|Hr]; [split; vm_compute; reflexivity|]).
    by apply elem_of_nil in Hr.
Defined.

(** C3, as stated, fails: a listing priced 100 with a floor area of zero
    gets the price per square foot +infinity, which is not NaN. *)
Lemma zero_sqft_gives_infinity :
  derive ex_raw = Ok ex_derived ∧
  rows ex_derived !! 0 = Some ex_queens ∧
  cell_at ex_queens "price" = Num (of_int 100) ∧
  cell_at ex_queens "sqft" = Num pos_zero ∧
  cell_at ex_queens "price_per_sqft" = Num (S754_infinity false) ∧
  isna (cell_at ex_queens "price_per_sqft") = false.
Proof. repeat split; vm_compute; reflexivity. Qed.

(** Without a [propertysqft] column (and without a [sqft] column of its
    own) line 39 reads a column that does not exist. *)
Lemma derive_without_sqft_column :
  derive ex_raw_no_sqft = Raise (KeyError "sqft").
Proof. vm_compute. reflexivity. Qed.

(** ** The filter *)

Lemma fle_trans (x y z : float) :
  fle x y = true → fle y z = true → fle x z = true.
Proof.
  unfold fle, SFleb, SFcompare.
  destruct x as [sx|sx| |sx mx ex], y as [sy|sy| |sy my ey], z as [sz|sz| |sz mz ez];
    try destruct sx; try destruct sy; try destruct sz; try done.
  all: change (Pos.compare_cont Eq) with Pos.compare.
  all: destruct (Z.compare_spec ex ey); try done;
       destruct (Z.compare_spec ey ez); try done;
       destruct (Z.compare_spec ex ez); try done; try lia; subst.
  all: destruct (Pos.compare_spec mx my); try done;
       destruct (Pos.compare_spec my mz); try done;
       destruct (Pos.compare_spec mx mz); try done; lia.
Qed.

Lemma select_fmap {A} (f : A → bool) (l : list A) :
  select (f <$> l) l = List.filter f l.
Proof. induction l as [|x l IH]; csimpl; [done|]. rewrite IH. done. Qed.

Lemma filter_none {A} (f : A → bool) (l : list A) :
  (∀ x, x ∈ l → f x = false) → List.filter f l = [].
Proof.
  intros H. rewrite <- (filter_false l). apply filter_ext_in.
  intros x Hx. apply H. by apply list_elem_of_In.
Qed.

Lemma filter_all {A} (f : A → bool) (l : list A) :
  (∀ x, x ∈ l → f x = true) → List.filter f l = l.
Proof.
  induction l as [|x l IH]; intros H; simpl; [done|].
  rewrite (H x) by apply list_elem_of_here.
  f_equal. apply IH. intros y Hy. apply H. by apply list_elem_of_further.
Qed.

Lemma filter_filter_bool {A} (f g : A → bool) (l : list A) :
  List.filter g (List.filter f l) = List.filter (λ x, f x && g x) l.
Proof.
  induction l as [|x l IH]; simpl; [done|].
  destruct (f x); simpl; [destruct (g x)|]; by rewrite IH.
Qed.

Lemma cleaned_facts (data : DataFrame) :
  cleaned data →
  has_column data "price" = true ∧ has_column data "borough" = true ∧
  ∀ r, r ∈ rows data →
       ∃ p b, cell_at r "price" = Num p ∧ is_nan p = false ∧
              cell_at r "borough" = Str b.
Proof.
  intros [raw H]. apply clean_Ok in H as (df & Hd & Hc & Hk & Hrows).
  split; [apply Hk; set_solver|]. split; [apply Hk; set_solver|].
  intros r Hr. rewrite Hrows in Hr. apply elem_of_filter_bool in Hr as [Hr Hadm].
  unfold survives, key_fields in Hadm. simpl in Hadm.
  rewrite !andb_true_iff in Hadm. destruct Hadm as (Hp & _ & _ & Hb & _).
  pose proof (derive_Ok _ _ Hd) as (_ & _ & _ & Hrows' & Hnum & _).
  rewrite Forall_forall in Hnum. destruct (Hnum r Hr) as (x & y & Hx & _).
  rewrite Hrows' in Hr. apply list_elem_of_fmap in Hr as (r0 & -> & _).
  destruct (derived_row_lookup (has_column (rename str_lower raw) "propertysqft") r0)
    as (Hbor & _).
  rewrite Hx in Hp |- *. rewrite Hbor in Hb |- *.
  apply extract_cell_notna in Hb as (s & a & _ & _ & ->).
  exists x, a. repeat split; try done.
  unfold notna, isna in Hp. by apply negb_true_iff in Hp.
Qed.

Lemma loc_mask_fmap (df : DataFrame) (f : Row → bool) :
  loc_mask df (f <$> rows df)
  = {| columns := columns df; rows := List.filter f (rows df) |}.
Proof. unfold loc_mask. by rewrite select_fmap. Qed.

Lemma filtered_rows (data : DataFrame) (thr : float) (sel : string) :
  cleaned data →
  filtered data thr sel =
    Ok {| columns := columns data;
          rows := List.filter (keeps thr sel) (rows data) |}.
Proof.
  intros Hc. destruct (cleaned_facts data Hc) as (Hp & Hb & Hrows).
  unfold filtered. rewrite (getitem_has _ _ Hp). res_step.
  unfold le_scalar.
  rewrite (traverse_total _ (λ c, match c with Num v => fle v thr | Str _ => false end)).
  2:{ apply Forall_fmap, Forall_forall. intros r Hr. simpl.
      destruct (Hrows r Hr) as (p & b & -> & _). done. }
  rewrite <- list_fmap_compose. res_step. rewrite loc_mask_fmap.
  destruct (String.eqb sel "All") eqn:Hall; simpl.
  - f_equal. f_equal. apply List.filter_ext. intros r. unfold keeps, compose, price_within.
    by rewrite Hall, orb_true_l, andb_true_r.
  - rewrite getitem_has by done. res_step. unfold eq_scalar.
    rewrite <- list_fmap_compose, loc_mask_fmap; simpl. rewrite filter_filter_bool.
    f_equal. f_equal. apply List.filter_ext. intros r.
    unfold keeps, compose, price_within, in_borough. by rewrite Hall.
Qed.

Lemma keeps_spec (thr : float) (sel : string) (r : Row) :
  keeps thr sel r = true ↔
  (∃ p, cell_at r "price" = Num p ∧ fle p thr = true) ∧
  (sel ≠ "All" → cell_at r "borough" = Str sel).
Proof.
  unfold keeps, price_within, in_borough.
  rewrite andb_true_iff, orb_true_iff. split.
  - intros [Hp Hb]. split.
    + destruct (cell_at r "price") as [p|]; [eauto | discriminate].
    + intros Hne. destruct Hb as [Hb|Hb].
      * by apply String.eqb_eq in Hb.
      * destruct (cell_at r "borough") as [|b]; [discriminate|].
        by apply String.eqb_eq in Hb as ->.
  - intros [(p & -> & Hp) Hb]. split; [done|].
    destruct (String.eqb sel "All") eqn:Hall; [by left | right].
    rewrite Hb; [apply String.eqb_refl|]. intros ->. by rewrite String.eqb_refl in Hall.
Qed.

(** C2. On a cleaned table the filter raises nothing and keeps, in their
    order, exactly the rows whose price is at most the ceiling (ceiling
    included) and, only when the selection is not "All", whose borough is
    the selection: the two tests are conjoined.  On the two listings
    priced 100 in Queens and 500 in Manhattan, a ceiling of 200 keeps
    exactly the first. *)
Theorem filter_keeps_exactly (data : DataFrame) (price_threshold : float)
    (selected_borough : string) :
  cleaned data →
  (∃ out, filtered data price_threshold selected_borough = Ok out ∧
     columns out = columns data ∧
     rows out = List.filter (keeps price_threshold selected_borough) (rows data) ∧
     ∀ r, r ∈ rows out ↔
          r ∈ rows data ∧
          (∃ p, cell_at r "price" = Num p ∧ fle p price_threshold = true) ∧
          (selected_borough ≠ "All" → cell_at r "borough" = Str selected_borough)) ∧
  filtered ex_data (of_int 200) "All"
    = Ok {| columns := clean_columns; rows := [ex_queens] |}.
Proof.
  intros Hc. split; [|by vm_compute].
  eexists. split; [by apply filtered_rows|]. simpl. split; [done|]. split; [done|].
  intros r. by rewrite elem_of_filter_bool, keeps_spec.
Qed.

Lemma filter_keeps_exactly_witness :
  (∃ out, filtered ex_data (of_int 200) "Queens" = Ok out ∧
     columns out = columns ex_data ∧
     rows out = List.filter (keeps (of_int 200) "Queens") (rows ex_data) ∧
     ∀ r, r ∈ rows out ↔
          r ∈ rows ex_data ∧
          (∃ p, cell_at r "price" = Num p ∧ fle p (of_int 200) = true) ∧
          ("Queens" ≠ "All" → cell_at r "borough" = Str "Queens")) ∧
  filtered ex_data (of_int 200) "All"
    = Ok {| columns := clean_columns; rows := [ex_queens] |}.
Proof.
  apply (filter_keeps_exactly ex_data (of_int 200) "Queens").
  exists ex_raw. vm_compute. reflexivity.
Defined.

(** C6. On a cleaned table, for one borough selection and two price
    ceilings the first of which is at most the second, both filters
    succeed and every row kept under the lower ceiling is kept under the
    higher one. *)
Theorem filter_monotone (data : DataFrame) (selected_borough : string)
    (max_price1 max_price2 : float) :
  cleaned data →
  fle max_price1 max_price2 = true →
  ∃ out1 out2,
    filtered data max_price1 selected_borough = Ok out1 ∧
    filtered data max_price2 selected_borough = Ok out2 ∧
    rows out1 ⊆ rows out2.
Proof.
  intros Hc Hle. eexists _, _.
  split; [by apply filtered_rows|]. split; [by apply filtered_rows|]. simpl.
  intros r. rewrite !elem_of_filter_bool, !keeps_spec.
  intros (Hr & (p & Hp & Hle1) & Hb). repeat split; try done.
  exists p. split; [done|]. by apply fle_trans with max_price1.
Qed.

Lemma filter_monotone_witness :
  ∃ out1 out2,
    filtered ex_data (of_int 200) "All" = Ok out1 ∧
    filtered ex_data (of_int 500) "All" = Ok out2 ∧
    rows out1 ⊆ rows out2.
Proof.
  apply (filter_monotone ex_data "All" (of_int 200) (of_int 500)).
  - exists ex_raw. vm_compute. reflexivity.
  - reflexivity.
Defined.

(** ** Empty tables and missing files *)

(** C8. On a table with no row (and with the columns the function
    reads: price, and borough when a borough is selected),
    [compute_price_stats] raises nothing and returns NaN for the mean and
    NaN for the median. *)
Theorem price_stats_empty (df : DataFrame) (borough : string) :
  has_column df "price" = true →
  (borough ≠ "All" → has_column df "borough" = true) →
  rows df = [] →
  compute_price_stats df borough = Ok (NaN, NaN).
Proof.
  intros Hp Hb Hrows. unfold compute_price_stats.
  destruct (String.eqb borough "All") eqn:Hall.
  - res_step. rewrite (getitem_has _ _ Hp), Hrows. reflexivity.
  - assert (borough ≠ "All") as Hne by (intros ->; by rewrite String.eqb_refl in Hall).
    rewrite (getitem_has _ _ (Hb Hne)), Hrows. res_step.
    unfold getitem, loc_mask, has_column in *; simpl. rewrite Hp. reflexivity.
Qed.

Lemma price_stats_empty_witness :
  compute_price_stats {| columns := clean_columns; rows := [] |} "Queens"
  = Ok (NaN, NaN).
Proof.
  apply price_stats_empty; [reflexivity | intros _; reflexivity | reflexivity].
Defined.

(** In the script the statistics are taken of the filtered table, which
    has both columns: when the filters leave no row, the mean and the
    median are NaN. *)
Corollary price_stats_of_empty_selection (data ft : DataFrame)
    (price_threshold : float) (selected_borough : string) :
  cleaned data →
  filtered data price_threshold selected_borough = Ok ft →
  rows ft = [] →
  compute_price_stats ft selected_borough = Ok (NaN, NaN).
Proof.
  intros Hc Hf Hrows. rewrite (filtered_rows _ _ _ Hc) in Hf. injection Hf as <-.
  destruct (cleaned_facts data Hc) as (Hp & Hb & _).
  unfold compute_price_stats.
  destruct (String.eqb selected_borough "All"); res_step.
  - rewrite getitem_has by done. simpl in Hrows |- *. by rewrite Hrows.
  - rewrite getitem_has by done. simpl in Hrows |- *. rewrite Hrows. res_step.
    unfold getitem, loc_mask, has_column in *; simpl. by rewrite Hp.
Qed.

Lemma load_data_not_found (fs : string → res DataFrame) (filepath : string) :
  fs filepath = Raise FileNotFoundError →
  load_data fs filepath
  = (Ok empty_frame, [st_error ("File not found: " +:+ filepath)]).
Proof. unfold load_data. by intros ->. Qed.

(** C7. When [read_csv] raises [FileNotFoundError], [load_data] reports
    "File not found: <path>" and returns the empty table
    [pd.DataFrame()]; the script then stops: after the page configuration
    and the title, the error message is the last thing it shows, and no
    widget, filter, statistic, table or chart follows. *)
Theorem missing_file_halts (quicksort : list float → list nat)
    (fs : string → res DataFrame) (ui : UI) (filepath : string) :
  fs filepath = Raise FileNotFoundError →
  fs dataset_path = Raise FileNotFoundError →
  load_data fs filepath
    = (Ok empty_frame, [st_error ("File not found: " +:+ filepath)]) ∧
  script quicksort fs ui
    = (Raise StopException,
       [st_set_page_config "NY Housing Explorer" "wide" "expanded";
        st_title "NY Housing Data";
        st_error "File not found: NY-House-Dataset.csv"]).
Proof.
  intros Hf Hd. split; [by apply load_data_not_found|].
  unfold script. rewrite (load_data_not_found _ _ Hd). reflexivity.
Qed.

Lemma missing_file_halts_witness :
  load_data no_files "listings.csv"
    = (Ok empty_frame, [st_error "File not found: listings.csv"]) ∧
  script (λ _, []) no_files ex_ui
    = (Raise StopException,
       [st_set_page_config "NY Housing Explorer" "wide" "expanded";
        st_title "NY Housing Data";
        st_error "File not found: NY-House-Dataset.csv"]).
Proof.
  apply (missing_file_halts (λ _, []) no_files ex_ui "listings.csv"); reflexivity.
Defined.

(** ** Sorting *)




Lemma take_idx_shift {A} (x : A) (l : list A) (p : list nat) :
  take_idx (x :: l) (S <$> p) = take_idx l p.
Proof. unfold take_idx. induction p as [|i p IH]; csimpl; [done|]. by rewrite IH. Qed.

Lemma take_idx_all {A} (l : list A) : take_idx l (seq 0 (length l)) = l.
Proof.
  induction l as [|x l IH]; [done|].
  simpl length. simpl seq. rewrite <- fmap_S_seq.
  unfold take_idx at 1. csimpl. fold (take_idx (x :: l) (S <$> seq 0 (length l))).
  by rewrite take_idx_shift, IH.
Qed.

Lemma take_idx_perm {A} (l : list A) (p : list nat) :
  p ≡ₚ seq 0 (length l) → take_idx l p ≡ₚ l.
Proof.
  intros Hp. rewrite <- (take_idx_all l) at 2. unfold take_idx. by rewrite Hp.
Qed.

Lemma take_idx_seq (n : nat) (p : list nat) :
  Forall (λ i, i < n) p → take_idx (seq 0 n) p = p.
Proof.
  unfold take_idx. induction 1 as [|i p Hi _ IH]; csimpl; [done|].
  rewrite lookup_seq_lt by done. csimpl. by rewrite IH.
Qed.

Lemma take_idx_reverse_seq (n : nat) (p : list nat) :
  Forall (λ i, i < n) p →
  take_idx (reverse (seq 0 n)) p = (λ i, n - S i) <$> p.
Proof.
  unfold take_idx. induction 1 as [|i p Hi _ IH]; csimpl; [done|].
  rewrite reverse_lookup by (by rewrite length_seq). rewrite length_seq.
  rewrite lookup_seq_lt by lia. csimpl. by rewrite IH.
Qed.


Lemma select_all {A} (mask : list bool) (l : list A) :
  length mask = length l → Forall (λ b, b = true) mask → select mask l = l.
Proof.
  intros Hlen H. revert l Hlen. induction H as [|b mask -> _ IH]; intros [|x l]; simpl;
    try done. intros [= Hlen]. by rewrite IH.
Qed.

Lemma select_none {A} (mask : list bool) (l : list A) :
  Forall (λ b, b = false) mask → select mask l = [].
Proof.
  intros H. revert l. induction H as [|b mask -> _ IH]; intros [|x l]; simpl; done.
Qed.

Lemma perm_seq_bound (p : list nat) (n : nat) :
  p ≡ₚ seq 0 n → Forall (λ i, i < n) p.
Proof.
  intros Hp. apply Forall_forall. intros i Hi. rewrite Hp in Hi.
  apply elem_of_seq in Hi. lia.
Qed.

Lemma StronglySorted_reverse {A} (R : A → A → Prop) (l : list A) :
  StronglySorted R l → StronglySorted (λ a b, R b a) (reverse l).
Proof.
  induction 1 as [|x l _ IH Hx]; [constructor|].
  rewrite reverse_cons. apply StronglySorted_app_2; [|done|repeat constructor].
  intros a b Ha Hb. apply list_elem_of_singleton in Hb as ->.
  rewrite elem_of_reverse in Ha. rewrite Forall_forall in Hx. by apply Hx.
Qed.

Section NargsortNoNaN.

Variable quicksort : list float → list nat.
Hypothesis quicksort_correct : argsort_correct quicksort.

Lemma nargsort_no_nan (xs : list float) (ascending : bool) :
  Forall (λ x, is_nan x = false) xs →
  nargsort quicksort xs ascending =
    if ascending then quicksort xs
    else reverse ((λ i, length xs - S i) <$> quicksort (reverse xs)).
Proof.
  intros Hxs. unfold nargsort.
  rewrite (select_none (is_nan <$> xs)) by (by apply Forall_fmap).
  rewrite app_nil_r.
  rewrite !select_all;
    try (rewrite !length_fmap, ?length_seq; done);
    try (rewrite Forall_fmap, Forall_fmap; eapply Forall_impl; [exact Hxs|];
         intros x Hx; simpl; by rewrite Hx).
  destruct ascending.
  - apply take_idx_seq, perm_seq_bound. by apply quicksort_correct.
  - f_equal. apply take_idx_reverse_seq.
    assert (Hr : Forall (λ x, is_nan x = false) (reverse xs)).
    { by apply Forall_reverse. }
    destruct (quicksort_correct _ Hr) as [Hp _]. rewrite length_reverse in Hp.
    by apply perm_seq_bound.
Qed.

Lemma nargsort_perm (xs : list float) (ascending : bool) :
  Forall (λ x, is_nan x = false) xs →
  nargsort quicksort xs ascending ≡ₚ seq 0 (length xs).
Proof.
  intros Hxs. rewrite nargsort_no_nan by done. destruct ascending.
  - by apply quicksort_correct.
  - assert (Hr : Forall (λ x, is_nan x = false) (reverse xs)).
    { by apply Forall_reverse. }
    destruct (quicksort_correct _ Hr) as [Hp _]. rewrite length_reverse in Hp.
    rewrite reverse_Permutation.
    rewrite <- (take_idx_reverse_seq (length xs)) by (by apply perm_seq_bound).
    rewrite take_idx_perm by (by rewrite length_reverse, length_seq).
    apply reverse_Permutation.
Qed.


End NargsortNoNaN.

(** ** Order on binary64 *)

Lemma SFcompare_antisym (x y : float) :
  SFcompare y x = CompOpp <$> SFcompare x y.
Proof.
  unfold SFcompare.
  destruct x as [sx|sx| |sx mx ex], y as [sy|sy| |sy my ey];
    try destruct sx; try destruct sy; try done; csimpl.
  all: change (Pos.compare_cont Eq) with Pos.compare.
  all: rewrite (Z.compare_antisym ex ey), (Pos.compare_antisym mx my).
  all: destruct (ex ?= ey)%Z; simpl; try done.
  all: by destruct (mx ?= my)%positive.
Qed.

Lemma flt_fle (x y : float) : flt x y = true → fle x y = true.
Proof. unfold flt, fle, SFltb, SFleb. by destruct (SFcompare x y) as [[]|]. Qed.

Lemma fle_total (x y : float) :
  is_nan x = false → is_nan y = false → flt x y = false → fle y x = true.
Proof.
  intros Hx Hy. unfold flt, fle, SFltb, SFleb. rewrite (SFcompare_antisym x y).
  destruct (SFcompare x y) as [[]|] eqn:Hc; try done.
  by destruct x, y.
Qed.

Lemma fle_not_flt (x y : float) : fle x y = true → flt y x = false.
Proof.
  unfold flt, fle, SFltb, SFleb. rewrite (SFcompare_antisym x y).
  by destruct (SFcompare x y) as [[]|].
Qed.

(** On a number that is not NaN, [x >= y] and [x < y] are each other's
    negation. *)
Lemma fle_flt_complement (x y : float) :
  is_nan x = false → is_nan y = false → fle y x = negb (flt x y).
Proof.
  intros Hx Hy. unfold fle, flt, SFleb, SFltb. rewrite (SFcompare_antisym x y).
  destruct (SFcompare x y) as [[]|] eqn:Hc; try done. by destruct x, y.
Qed.

Lemma fle_false_flt (x y : float) :
  is_nan x = false → is_nan y = false → fle x y = false → flt y x = true.
Proof.
  intros Hx Hy H. rewrite (fle_flt_complement y x Hy Hx) in H.
  by apply negb_false_iff in H.
Qed.

Lemma StronglySorted_impl {A} (R1 R2 : relation A) (l : list A) :
  (∀ x y, R1 x y → R2 x y) → StronglySorted R1 l → StronglySorted R2 l.
Proof.
  intros HR. induction 1 as [|x l _ IH Hx]; constructor; [done|].
  eapply Forall_impl; [exact Hx|]. intros y. apply HR.
Qed.

Lemma StronglySorted_fmap_elem {A B} (f : A → B) (R1 : relation A) (R2 : relation B)
    (l : list A) :
  (∀ x y, x ∈ l → y ∈ l → R1 x y → R2 (f x) (f y)) →
  StronglySorted R1 l → StronglySorted R2 (f <$> l).
Proof.
  induction l as [|x l IH]; intros HR Hs; [constructor|].
  apply StronglySorted_cons in Hs as [Hx Hs]. csimpl. constructor.
  - apply IH; [|done]. intros a b Ha Hb. apply HR; by right.
  - rewrite Forall_fmap. rewrite Forall_forall in Hx |- *.
    intros y Hy. simpl. apply HR; [by left | by right | by apply Hx].
Qed.

Lemma take_idx_pairs (xs : list float) (l : list (nat * float)) :
  Forall (λ p, xs !! p.1 = Some p.2) l → take_idx xs l.*1 = l.*2.
Proof.
  unfold take_idx. induction 1 as [|[i v] l Hp _ IH]; csimpl; [done|].
  simpl in Hp. rewrite Hp. csimpl. by rewrite IH.
Qed.

Lemma zip_seq_lookup (xs : list float) :
  Forall (λ p, xs !! p.1 = Some p.2) (zip (seq 0 (length xs)) xs).
Proof.
  apply Forall_forall. intros [i v] Hp.
  apply list_elem_of_lookup in Hp as [k Hk].
  apply lookup_zip_with_Some in Hk as (a & b & [= <- <-] & Ha & Hb).
  apply lookup_seq in Ha as [-> _]. done.
Qed.

Lemma zip_seq_increasing (xs : list float) (start : nat) :
  StronglySorted (λ p q : nat * float, p.1 < q.1) (zip (seq start (length xs)) xs).
Proof.
  revert start. induction xs as [|x xs IH]; intros start; simpl; constructor; [done|].
  apply Forall_forall. intros [i v] Hp. apply elem_of_zip_l in Hp.
  apply elem_of_seq in Hp. simpl. lia.
Qed.

Section InsertionSort.

Variable before : float → float → bool.
Hypothesis before_fle : ∀ x y, before x y = true → fle x y = true.
Hypothesis before_total :
  ∀ x y, is_nan x = false → is_nan y = false → before x y = false → fle y x = true.

Lemma insert_by_perm (x : nat * float) (l : list (nat * float)) :
  insert_by before x l ≡ₚ x :: l.
Proof using Type.
  induction l as [|y l IH]; simpl; [done|].
  destruct (before x.2 y.2); [done|]. rewrite IH. apply Permutation_swap.
Qed.

Lemma foldr_insert_by_perm (l : list (nat * float)) :
  foldr (insert_by before) [] l ≡ₚ l.
Proof using Type.
  induction l as [|x l IH]; simpl; [done|]. by rewrite insert_by_perm, IH.
Qed.

Lemma insert_by_sorted (x : nat * float) (l : list (nat * float)) :
  is_nan x.2 = false →
  Forall (λ y, is_nan y.2 = false) l →
  StronglySorted (λ a b, fle a.2 b.2 = true) l →
  StronglySorted (λ a b, fle a.2 b.2 = true) (insert_by before x l).
Proof using before_fle before_total.
  intros Hx Hl Hs. induction Hs as [|y l Hs IH Hy]; simpl.
  - repeat constructor.
  - apply Forall_cons in Hl as [Hny Hl].
    destruct (before x.2 y.2) eqn:Hlt.
    + apply before_fle in Hlt. constructor; [by constructor|].
      constructor; [done|]. eapply Forall_impl; [exact Hy|].
      intros z Hz. simpl in *. by eapply fle_trans.
    + constructor; [by apply IH|].
      rewrite insert_by_perm. constructor; [|done].
      by apply before_total.
Qed.

Lemma foldr_insert_by_sorted (l : list (nat * float)) :
  Forall (λ y, is_nan y.2 = false) l →
  StronglySorted (λ a b, fle a.2 b.2 = true) (foldr (insert_by before) [] l).
Proof using before_fle before_total.
  induction 1 as [|x l Hx Hl IH]; simpl; [constructor|].
  apply insert_by_sorted; [done | by rewrite foldr_insert_by_perm | done].
Qed.

Lemma argsort_by_correct : argsort_correct (argsort_by before).
Proof using before_fle before_total.
  intros xs Hxs. unfold argsort_by.
  set (ps := zip (seq 0 (length xs)) xs).
  assert (Hperm : foldr (insert_by before) [] ps ≡ₚ ps) by apply foldr_insert_by_perm.
  assert (Hnan : Forall (λ y : nat * float, is_nan y.2 = false) ps).
  { apply Forall_forall. intros [i v] Hp.
    apply elem_of_zip_r in Hp. rewrite Forall_forall in Hxs. by apply Hxs. }
  split.
  - rewrite Hperm. unfold ps. by rewrite fst_zip by (by rewrite length_seq).
  - rewrite take_idx_pairs.
    + apply (StronglySorted_fmap snd (λ a b : nat * float, fle a.2 b.2 = true));
        [done | by apply foldr_insert_by_sorted].
    + rewrite Hperm. apply zip_seq_lookup.
Qed.

End InsertionSort.

Lemma argsort_insertion_correct : argsort_correct argsort_insertion.
Proof.
  apply argsort_by_correct; [done|].
  intros x y Hx Hy H. by apply flt_fle, fle_false_flt.
Qed.

Lemma insert_fle_stable (x : nat * float) (l : list (nat * float)) :
  is_nan x.2 = false →
  Forall (λ y, is_nan y.2 = false ∧ x.1 < y.1) l →
  StronglySorted (λ p q, p.1 < q.1 ∨ flt p.2 q.2 = true) l →
  StronglySorted (λ p q, p.1 < q.1 ∨ flt p.2 q.2 = true) (insert_by fle x l).
Proof.
  intros Hx Hl Hs. induction Hs as [|y l Hs IH Hy]; simpl.
  - repeat constructor.
  - apply Forall_cons in Hl as [[Hny Hxy] Hl].
    destruct (fle x.2 y.2) eqn:Hle.
    + constructor; [by constructor|].
      constructor; [by left|]. eapply Forall_impl; [exact Hl|].
      intros z [_ Hz]. by left.
    + constructor; [by apply IH|].
      rewrite insert_by_perm. constructor; [|done].
      right. by apply fle_false_flt.
Qed.

Lemma argsort_insertion_stable : argsort_stable argsort_insertion.
Proof.
  intros xs Hxs. unfold argsort_insertion, argsort_by.
  set (ps := zip (seq 0 (length xs)) xs).
  assert (Hnan : Forall (λ y : nat * float, is_nan y.2 = false) ps).
  { apply Forall_forall. intros [i v] Hp.
    apply elem_of_zip_r in Hp. rewrite Forall_forall in Hxs. by apply Hxs. }
  assert (Hst : StronglySorted (λ p q, p.1 < q.1 ∨ flt p.2 q.2 = true)
                  (foldr (insert_by fle) [] ps)).
  { pose proof (zip_seq_increasing xs 0) as Hinc. fold ps in Hinc.
    induction Hinc as [|x l Hinc IH Hx]; simpl; [constructor|].
    apply Forall_cons in Hnan as [Hnx Hnl].
    apply insert_fle_stable; [done| |by apply IH].
    rewrite foldr_insert_by_perm. rewrite Forall_forall in Hnl, Hx |- *.
    intros y Hy. split; [by apply Hnl | by apply Hx]. }
  eapply StronglySorted_fmap_elem; [|exact Hst].
  intros [i a] [j b] Hi Hj. rewrite foldr_insert_by_perm in Hi, Hj.
  pose proof (zip_seq_lookup xs) as Hl. rewrite Forall_forall in Hl.
  apply Hl in Hi, Hj. simpl in *.
  intros [Hlt | Hab]; [by left | right; by exists a, b].
Qed.







Section StableSort.

Variable quicksort : list float → list nat.
Hypothesis quicksort_correct : argsort_correct quicksort.
Hypothesis quicksort_stable : argsort_stable quicksort.

Lemma nargsort_stable (xs : list float) (ascending : bool) :
  Forall (λ x, is_nan x = false) xs →
  StronglySorted
    (λ i j, i < j ∨ ∃ a b, xs !! i = Some a ∧ xs !! j = Some b ∧
                           if ascending then flt a b = true else flt b a = true)
    (nargsort quicksort xs ascending).
Proof.
  intros Hxs. rewrite nargsort_no_nan by done. destruct ascending.
  - by apply quicksort_stable.
  - assert (Hr : Forall (λ x, is_nan x = false) (reverse xs)) by (by apply Forall_reverse).
    destruct (quicksort_correct _ Hr) as [Hp _]. rewrite length_reverse in Hp.
    pose proof (perm_seq_bound _ _ Hp) as Hb. rewrite Forall_forall in Hb.
    apply (StronglySorted_reverse
             (λ j i, i < j ∨ ∃ a b, xs !! i = Some a ∧ xs !! j = Some b ∧ flt b a = true)).
    eapply StronglySorted_fmap_elem; [|by apply quicksort_stable].
    intros i j Hi Hj. apply Hb in Hi, Hj. simpl.
    intros [Hlt | (a & b & Ha & Hb' & Hab)]; [left; lia | right].
    rewrite reverse_lookup in Ha, Hb' by done.
    exists b, a. by repeat split.
Qed.

End StableSort.

(** With a stable sorting algorithm ([kind="stable"] or ["mergesort"]),
    the ranking does keep rows of equal price in their original order,
    in both directions: the positions of the table, in the order in
    which the ranking lists them, never put a later row before an
    earlier one unless its price is strictly better. *)
Theorem rank_by_price_stable (quicksort : list float → list nat)
    (ft : DataFrame) (n : nat) (ascending : bool) :
  argsort_correct quicksort →
  argsort_stable quicksort →
  has_column ft "price" = true →
  (∀ r, r ∈ rows ft → ∃ p, cell_at r "price" = Num p ∧ is_nan p = false) →
  ∃ indexer,
    rank_by_price quicksort ft n ascending
      = Ok {| columns := columns ft; rows := take n (take_idx (rows ft) indexer) |} ∧
    indexer ≡ₚ seq 0 (length (rows ft)) ∧
    StronglySorted (ties_in_row_order ft ascending) indexer.
Proof.
  intros Hq Hst Hcol Hrows.
  unfold rank_by_price, sort_values. rewrite (getitem_has _ _ Hcol). res_step.
  unfold numeric. rewrite (traverse_total _ (λ c, match c with Num p => p | Str _ => nan end)).
  2:{ apply Forall_fmap, Forall_forall. intros r Hr. simpl.
      by destruct (Hrows r Hr) as (p & -> & _). }
  rewrite <- list_fmap_compose. res_step.
  change ((λ c, match c with Num p => p | Str _ => nan end) ∘ (λ r, cell_at r "price"))
    with price_of.
  set (xs := price_of <$> rows ft).
  assert (Hxs : Forall (λ x, is_nan x = false) xs).
  { apply Forall_fmap, Forall_forall. intros r Hr. unfold price_of. simpl.
    by destruct (Hrows r Hr) as (p & -> & Hp). }
  exists (nargsort quicksort xs ascending). split; [done|]. split.
  - rewrite (nargsort_perm quicksort Hq xs ascending Hxs). unfold xs.
    by rewrite length_fmap.
  - eapply StronglySorted_impl; [|exact (nargsort_stable quicksort Hq Hst xs ascending Hxs)].
    intros i j [Hlt | (a & b & Ha & Hb & Hab)]; [by left | right].
    unfold xs in Ha, Hb. rewrite list_lookup_fmap in Ha, Hb.
    destruct (rows ft !! i) as [r1|]; [|done].
    destruct (rows ft !! j) as [r2|]; [|done].
    injection Ha as <-. injection Hb as <-. by exists r1, r2.
Qed.

(** The insertion sort that puts equal elements first-come first is such
    an algorithm, and with it the two listings priced 300 keep their
    order, Queens then Brooklyn, in both directions.  So they do with
    numpy's quicksort, which sorts a table of at most 17 rows by
    insertion. *)
Example equal_prices_kept_by_stable_sort :
  argsort_correct argsort_insertion ∧ argsort_stable argsort_insertion ∧
  rank_by_price argsort_insertion ex_ties 5 true
    = Ok {| columns := clean_columns; rows := [ex_tie_a; ex_tie_b] |} ∧
  rank_by_price argsort_insertion ex_ties 5 false
    = Ok {| columns := clean_columns; rows := [ex_tie_a; ex_tie_b] |} ∧
  rank_by_price npy_aquicksort ex_ties 5 true
    = Ok {| columns := clean_columns; rows := [ex_tie_a; ex_tie_b] |} ∧
  rank_by_price npy_aquicksort ex_ties 5 false
    = Ok {| columns := clean_columns; rows := [ex_tie_a; ex_tie_b] |}.
Proof.
  split; [exact argsort_insertion_correct|].
  split; [exact argsort_insertion_stable|].
  split; [vm_compute; reflexivity|]. split; [vm_compute; reflexivity|].
  split; vm_compute; reflexivity.
Qed.

(** ** Conversion of integers and division never give NaN *)

Lemma iter_pos_inv {A} (P : A → Prop) (f : A → A) (n : positive) (x : A) :
  (∀ y, P y → P (f y)) → P x → P (SpecFloat.iter_pos f n x).
Proof.
  intros Hf. revert x. induction n as [n IH|n IH|]; intros x Hx; simpl; auto.
Qed.

Lemma shr_1_nonneg (mrs : shr_record) :
  (0 ≤ shr_m mrs)%Z → (0 ≤ shr_m (shr_1 mrs))%Z.
Proof.
  destruct mrs as [m r s]. simpl. destruct m as [|[p|p|]|[p|p|]]; simpl; lia.
Qed.

Lemma shr_fexp_nonneg (m e : Z) (l : location) :
  (0 ≤ m)%Z → (0 ≤ shr_m (shr_fexp prec emax m e l).1)%Z.
Proof.
  intros Hm. unfold shr_fexp, shr.
  assert (H0 : (0 ≤ shr_m (shr_record_of_loc m l))%Z).
  { by destruct l as [|[]]. }
  destruct (fexp prec emax (Zdigits2 m + e) - e)%Z as [|n|n]; simpl; try done.
  by apply iter_pos_inv; [apply shr_1_nonneg|].
Qed.

Lemma round_nearest_even_nonneg (m : Z) (l : location) :
  (0 ≤ m)%Z → (0 ≤ round_nearest_even m l)%Z.
Proof.
  intros Hm. unfold round_nearest_even.
  destruct l as [|[]]; try done; [destruct (Z.even m)|]; lia.
Qed.

Lemma binary_round_aux_not_nan (s : bool) (m e : Z) (l : location) :
  (0 ≤ m)%Z → is_nan (binary_round_aux prec emax s m e l) = false.
Proof.
  intros Hm. unfold binary_round_aux.
  pose proof (shr_fexp_nonneg m e l Hm) as H1.
  destruct (shr_fexp prec emax m e l) as [mrs' e'] eqn:E1. simpl in H1.
  pose proof (shr_fexp_nonneg _ e' loc_Exact
                (round_nearest_even_nonneg _ (loc_of_shr_record mrs') H1)) as H2.
  destruct (shr_fexp prec emax _ e' loc_Exact) as [mrs'' e''] eqn:E2. simpl in H2.
  destruct (shr_m mrs'') as [|p|p]; try done.
  by destruct (e'' <=? emax - prec)%Z.
Qed.

Lemma fdiv_finite_not_nan (sx sy : bool) (mx my : positive) (ex ey : Z) :
  is_nan (fdiv (S754_finite sx mx ex) (S754_finite sy my ey)) = false.
Proof.
  unfold fdiv, SFdiv.
  destruct (SFdiv_core_binary prec emax (Z.pos mx) ex (Z.pos my) ey) as [[q e'] l] eqn:E.
  apply binary_round_aux_not_nan.
  unfold SFdiv_core_binary in E.
  set (s := (ex - ey - _)%Z) in E.
  set (m' := match s with Z0 => Z.pos mx | Z.pos _ => Z.shiftl (Z.pos mx) s | Z.neg _ => 0%Z end) in E.
  assert (Hm' : (0 ≤ m')%Z).
  { unfold m'. destruct s; try lia. apply Z.shiftl_nonneg. lia. }
  pose proof (Z.div_eucl_eq m' (Z.pos my) ltac:(lia)) as Heq.
  pose proof (Z_div_mod m' (Z.pos my) ltac:(lia)) as Hdm.
  destruct (Z.div_eucl m' (Z.pos my)) as [q' r'] eqn:Ed.
  injection E as <- _ _. nia.
Qed.

Lemma binary_round_aux_exact (s : bool) (m : positive) (e : Z) :
  Z.pos (digits2_pos m) = prec →
  (emin prec emax ≤ e ≤ emax - prec)%Z →
  binary_round_aux prec emax s (Z.pos m) e loc_Exact = S754_finite s m e.
Proof.
  intros Hd He. unfold binary_round_aux.
  assert (Hs : ∀ mrs, shr mrs e (fexp prec emax (Zdigits2 (Z.pos m) + e) - e) = (mrs, e)).
  { intros mrs. unfold Zdigits2. rewrite Hd.
    replace (fexp prec emax (prec + e) - e)%Z with 0%Z; [done|].
    unfold fexp. lia. }
  unfold shr_fexp. rewrite Hs. simpl. rewrite Hs. simpl.
  destruct (e <=? emax - prec)%Z eqn:Hle; [done|]. apply Z.leb_gt in Hle. lia.
Qed.

Lemma digits2_pos_iter_xO (p k : positive) :
  digits2_pos (Pos.iter xO p k) = (digits2_pos p + k)%positive.
Proof.
  induction k as [|k IH] using Pos.peano_ind.
  - simpl. lia.
  - rewrite Pos.iter_succ. simpl. rewrite IH. lia.
Qed.

Lemma digits2_pos_size (p : positive) : digits2_pos p = Pos.size p.
Proof. induction p; simpl; congruence. Qed.

Lemma digits2_pos_bound (p : positive) (n : positive) :
  (Z.pos p < 2 ^ Z.pos n)%Z → (digits2_pos p ≤ n)%positive.
Proof.
  intros Hp. rewrite digits2_pos_size.
  destruct (Pos.leb_spec (Pos.size p) n) as [|Hlt]; [done|]. exfalso.
  pose proof (Pos.size_le p) as Hs.
  apply Pos2Z.pos_le_pos in Hs. rewrite Pos2Z.inj_pow in Hs.
  assert (H2 : (2 ^ (Z.pos n + 1) ≤ 2 ^ Z.pos (Pos.size p))%Z).
  { apply Z.pow_le_mono_r; lia. }
  rewrite Z.pow_add_r in H2 by lia. lia.
Qed.

Lemma pos_iter_xO_Z (p k : positive) :
  Z.pos (Pos.iter xO p k) = (Z.pos p * 2 ^ Z.pos k)%Z.
Proof.
  induction k as [|k IH] using Pos.peano_ind.
  - simpl. lia.
  - rewrite Pos.iter_succ, Pos2Z.inj_xO, IH, Pos2Z.inj_succ, Z.pow_succ_r by lia. lia.
Qed.

(** An integer from 1 to below 2^53 converts exactly: to the number
    m * 2^e with m = z * 2^(53 - d) and e = d - 53, for d the number of
    binary digits of z. *)
Lemma of_int_exact (p : positive) :
  (Z.pos p < 2 ^ 53)%Z →
  ∃ m, of_int (Z.pos p) = S754_finite false m (Z.pos (digits2_pos p) - 53) ∧
       Z.pos m = (Z.pos p * 2 ^ (53 - Z.pos (digits2_pos p)))%Z.
Proof.
  intros Hhi. pose proof (digits2_pos_bound p 53 Hhi) as Hd.
  unfold of_int, binary_normalize, binary_round, shl_align.
  replace (fexp prec emax (Z.pos (digits2_pos p) + 0))
    with (Z.pos (digits2_pos p) - 53)%Z by (unfold fexp, emin, prec, emax; lia).
  destruct (Z.pos (digits2_pos p) - 53 - 0)%Z as [|k|k] eqn:Hk; try lia.
  - exists p. replace (Z.pos (digits2_pos p) - 53)%Z with 0%Z by lia. split.
    + apply binary_round_aux_exact; unfold emin, prec, emax; lia.
    + replace (53 - Z.pos (digits2_pos p))%Z with 0%Z by lia. lia.
  - exists (Pos.iter xO p k). split.
    + apply binary_round_aux_exact.
      * rewrite digits2_pos_iter_xO. unfold prec. lia.
      * unfold emin, prec, emax. lia.
    + rewrite pos_iter_xO_Z. f_equal. f_equal. lia.
Qed.

(** In particular it converts to a positive finite number. *)
Lemma of_int_finite (z : Z) :
  (1 ≤ z < 2 ^ 53)%Z → ∃ m e, of_int z = S754_finite false m e.
Proof.
  intros [Hlo Hhi]. destruct z as [|p|p]; try lia.
  destruct (of_int_exact p Hhi) as (m & Hm & _). eauto.
Qed.

Lemma digits2_pos_mono (p q : positive) :
  (p ≤ q)%positive → (digits2_pos p ≤ digits2_pos q)%positive.
Proof.
  intros Hpq. rewrite !digits2_pos_size.
  destruct (Pos.leb_spec (Pos.size p) (Pos.size q)) as [|Hlt]; [done|]. exfalso.
  pose proof (Pos.size_le p) as Hp. pose proof (Pos.size_gt q) as Hq.
  apply Pos2Z.pos_le_pos in Hp. apply Pos2Z.pos_lt_pos in Hq.
  rewrite Pos2Z.inj_pow in Hp, Hq.
  assert (H2 : (2 ^ (Z.pos (Pos.size q) + 1) ≤ 2 ^ Z.pos (Pos.size p))%Z).
  { apply Z.pow_le_mono_r; lia. }
  rewrite Z.pow_add_r in H2 by lia. lia.
Qed.

(** The conversion keeps the order of the integers it converts
    exactly. *)
Lemma of_int_monotone (z1 z2 : Z) :
  (0 ≤ z1 ≤ z2)%Z → (z2 < 2 ^ 53)%Z → fle (of_int z1) (of_int z2) = true.
Proof.
  intros [H0 H12] Hhi.
  destruct z1 as [|p1|p1]; try lia; destruct z2 as [|p2|p2]; try lia; try done.
  - by destruct (of_int_exact p2 Hhi) as (m2 & -> & _).
  - destruct (of_int_exact p1) as (m1 & -> & Hm1); [lia|].
    destruct (of_int_exact p2 Hhi) as (m2 & -> & Hm2).
    pose proof (digits2_pos_mono p1 p2 ltac:(lia)) as Hd.
    unfold fle, SFleb, SFcompare.
    change (Pos.compare_cont Eq) with Pos.compare.
    destruct (Z.compare_spec (Z.pos (digits2_pos p1) - 53) (Z.pos (digits2_pos p2) - 53))
      as [He|He|He]; [|done|exfalso; clear -Hd He; lia].
    assert (Hdd : digits2_pos p1 = digits2_pos p2) by (clear -He; lia).
    rewrite Hdd in Hm1.
    destruct (Pos.compare_spec m1 m2) as [|
      |Hgt]; [done|done|]. exfalso.
    pose proof (digits2_pos_bound p2 53 Hhi) as Hd2.
    assert (0 < 2 ^ (53 - Z.pos (digits2_pos p2)))%Z
      by (apply Z.pow_pos_nonneg; [done | clear -Hd2; lia]).
    nia.
Qed.

Lemma share_not_nan (count total : Z) :
  (1 ≤ count < 2 ^ 53)%Z → (1 ≤ total < 2 ^ 53)%Z →
  is_nan (share count total) = false.
Proof.
  intros Hc Ht. unfold share.
  destruct (of_int_finite count Hc) as (mc & ec & ->).
  destruct (of_int_finite total Ht) as (mt & et & ->).
  apply fdiv_finite_not_nan.
Qed.

Example share_boundary :
  fle lit_0_05 (share 1 20) = true ∧ flt (share 1 20) lit_0_05 = false ∧
  fle lit_0_05 (share 1 21) = false ∧ flt (share 1 21) lit_0_05 = true.
Proof. by vm_compute. Qed.

(** ** Counts *)

Lemma counts_sum_empty : counts_sum ∅ = 0%Z.
Proof. apply map_fold_empty. Qed.

Lemma counts_sum_insert (m : gmap cell Z) (k : cell) (v : Z) :
  m !! k = None → counts_sum (<[k := v]> m) = (v + counts_sum m)%Z.
Proof.
  intros Hk. unfold counts_sum. apply map_fold_insert_L; [|done]. intros; lia.
Qed.

Lemma counts_sum_delete (m : gmap cell Z) (k : cell) (v : Z) :
  m !! k = Some v → counts_sum m = (v + counts_sum (delete k m))%Z.
Proof.
  intros Hk. unfold counts_sum.
  apply (map_fold_delete_L (λ _ v acc, (v + acc)%Z) 0%Z k v m); [|done]. intros; lia.
Qed.

Lemma counts_sum_insert_over (m : gmap cell Z) (k : cell) (v : Z) :
  counts_sum (<[k := v]> m) = (v + counts_sum m - count_of m k)%Z.
Proof.
  unfold count_of. destruct (m !! k) as [c|] eqn:Hk; simpl.
  - rewrite (counts_sum_delete m k c Hk), <- insert_delete_eq.
    rewrite counts_sum_insert by apply lookup_delete_eq. lia.
  - rewrite counts_sum_insert by done. lia.
Qed.

Lemma counts_sum_split (P : cell * Z → Prop) `{!∀ x, Decision (P x)}
    (m : gmap cell Z) :
  counts_sum m
  = (counts_sum (filter P m) + counts_sum (filter (λ kv, ¬ P kv) m))%Z.
Proof.
  induction m as [|k v m Hk _ IH] using map_first_key_ind.
  - by rewrite !map_filter_empty, counts_sum_empty.
  - rewrite counts_sum_insert by done. rewrite IH.
    destruct (decide (P (k, v))) as [HP|HP].
    + rewrite map_filter_insert_True by done.
      rewrite (map_filter_insert_False (λ kv, ¬ P kv)) by tauto.
      rewrite delete_id by done.
      rewrite counts_sum_insert; [lia|].
      apply map_lookup_filter_None. by left.
    + rewrite map_filter_insert_False by done.
      rewrite (map_filter_insert_True (λ kv, ¬ P kv)) by done.
      rewrite delete_id by done.
      rewrite counts_sum_insert; [lia|].
      apply map_lookup_filter_None. by left.
Qed.

Lemma value_counts_cons (c : cell) (s : Series) :
  value_counts (c :: s) =
    if isna c then value_counts s
    else <[key_of c := (count_of (value_counts s) (key_of c) + 1)%Z]> (value_counts s).
Proof. done. Qed.

Lemma value_counts_sum (s : Series) :
  counts_sum (value_counts s) = Z.of_nat (length (List.filter notna s)).
Proof.
  induction s as [|c s IH]; [apply counts_sum_empty|].
  rewrite value_counts_cons. simpl List.filter. unfold notna at 1.
  destruct (isna c); simpl; [done|].
  rewrite counts_sum_insert_over, IH. lia.
Qed.

(** The count of a value is the number of cells that hold it. *)
Lemma value_counts_lookup (s : Series) (k : cell) :
  value_counts s !! k =
    match List.filter (λ c, notna c && bool_decide (key_of c = k)) s with
    | [] => None
    | l => Some (Z.of_nat (length l))
    end.
Proof.
  induction s as [|c s IH]; [done|].
  rewrite value_counts_cons. simpl List.filter. unfold notna at 1.
  destruct (isna c); simpl; [done|].
  destruct (decide (key_of c = k)) as [->|Hne].
  - rewrite bool_decide_eq_true_2 by done. rewrite lookup_insert_eq.
    unfold count_of. rewrite IH.
    destruct (List.filter _ s); simpl; f_equal; lia.
  - rewrite bool_decide_eq_false_2 by done. by rewrite lookup_insert_ne.
Qed.

Lemma value_counts_pos (s : Series) (k : cell) (c : Z) :
  value_counts s !! k = Some c →
  (1 ≤ c ≤ counts_sum (value_counts s))%Z.
Proof.
  rewrite value_counts_lookup, value_counts_sum. intros H.
  assert (Hlen : length (List.filter (λ c, notna c && bool_decide (key_of c = k)) s)
                 ≤ length (List.filter notna s)).
  { clear H. induction s as [|y s IH]; simpl; [done|].
    destruct (notna y); simpl; [|done].
    destruct (bool_decide (key_of y = k)); simpl; lia. }
  destruct (List.filter (λ c, notna c && bool_decide (key_of c = k)) s) as [|x l];
    [done|]. injection H as <-. simpl in *. lia.
Qed.

(** ** The property-type breakdown *)

Lemma filter_fmap_length {A B} (f : A → B) (g : B → bool) (l : list A) :
  length (List.filter g (f <$> l)) = length (List.filter (λ x, g (f x)) l).
Proof.
  induction l as [|x l IH]; csimpl; [done|]. destruct (g (f x)); simpl; by rewrite IH.
Qed.

Lemma type_counts_total (ft : DataFrame) :
  counts_sum (type_counts_of ft) = Z.of_nat (length (typed_rows ft)).
Proof.
  unfold type_counts_of, typed_rows. by rewrite value_counts_sum, filter_fmap_length.
Qed.

Lemma type_counts_lookup (ft : DataFrame) (k : cell) (c : Z) :
  type_counts_of ft !! k = Some c →
  c = Z.of_nat (length (rows_of_type ft k)) ∧
  (1 ≤ c ≤ counts_sum (type_counts_of ft))%Z.
Proof.
  intros H. split; [|by apply value_counts_pos in H].
  unfold type_counts_of in H. rewrite value_counts_lookup in H.
  unfold rows_of_type.
  destruct (List.filter _ _) as [|x l] eqn:Hf in H; [done|]. injection H as <-.
  change (S (length l)) with (length (x :: l)).
  by rewrite <- Hf, filter_fmap_length.
Qed.

Lemma pie_slices_Ok (ft : DataFrame) :
  has_column ft "type" = true →
  pie_slices ft
  = Ok (<[Str "Other" := other_count_of (type_counts_of ft)]>
          (main_of (type_counts_of ft))).
Proof. intros H. unfold pie_slices. by rewrite (getitem_has _ _ H). Qed.






(** On one listing of type "Other" and one of type "Condo", each half of
    the table, the breakdown gives "Other" the count 0. *)
Example other_category_overwritten :
  clean ex_raw_other = Ok ex_other ∧
  type_counts_of ex_other !! Str "Other" = Some 1%Z ∧
  at_least_5_percent 1 (counts_sum (type_counts_of ex_other)) = true ∧
  ∃ slices, pie_slices ex_other = Ok slices ∧
            slices !! Str "Other" = Some 0%Z ∧
            slices !! Str "Condo" = Some 1%Z.
Proof.
  split; [by vm_compute|]. split; [by vm_compute|]. split; [by vm_compute|].
  eexists. split; [by apply pie_slices_Ok|]. split; by vm_compute.
Qed.

Lemma below_is_not_at_least (ft : DataFrame) (k : cell) (c : Z) :
  (Z.of_nat (length (rows ft)) < 2 ^ 53)%Z →
  type_counts_of ft !! k = Some c →
  below_5_percent c (counts_sum (type_counts_of ft))
  = negb (at_least_5_percent c (counts_sum (type_counts_of ft))).
Proof.
  intros Hlen Hk. apply type_counts_lookup in Hk as [_ Hc].
  assert (Ht : (counts_sum (type_counts_of ft) < 2 ^ 53)%Z).
  { rewrite type_counts_total. unfold typed_rows.
    pose proof (List.filter_length_le (λ r, notna (cell_at r "type")) (rows ft)). lia. }
  unfold below_5_percent, at_least_5_percent.
  rewrite (fle_flt_complement (share c _) lit_0_05); [by rewrite negb_involutive| |done].
  apply share_not_nan; lia.
Qed.

(** C4 (amended). On a table that has a type column (and fewer than 2^53
    rows), the breakdown maps each type other than "Other" whose share
    of the rows with a type is at least 5% to its own count, the number
    of rows of that type, and drops the types whose share is strictly
    below 5%; it maps "Other" to the sum of the counts of the dropped
    types; and, when no type named "Other" is among the types kept, its
    counts sum to the number of rows whose type is not missing. *)
Theorem breakdown_counts (ft : DataFrame) :
  has_column ft "type" = true →
  (Z.of_nat (length (rows ft)) < 2 ^ 53)%Z →
  let type_counts := type_counts_of ft in
  let total := counts_sum type_counts in
  ∃ slices,
    pie_slices ft = Ok slices ∧
    total = Z.of_nat (length (typed_rows ft)) ∧
    (∀ k, k ≠ Str "Other" →
          slices !! k =
            match type_counts !! k with
            | Some c => if at_least_5_percent c total then Some c else None
            | None => None
            end) ∧
    (∀ k c, type_counts !! k = Some c →
            c = Z.of_nat (length (rows_of_type ft k)) ∧
            below_5_percent c total = negb (at_least_5_percent c total)) ∧
    slices !! Str "Other"
      = Some (counts_sum (filter (λ kv, below_5_percent kv.2 total = true) type_counts)) ∧
    (main_of type_counts !! Str "Other" = None →
     counts_sum slices = Z.of_nat (length (typed_rows ft))).
Proof.
  intros Ht Hlen. cbv zeta. eexists. split; [by apply pie_slices_Ok|].
  split; [apply type_counts_total|]. split; [|split; [|split]].
  - intros k Hk. rewrite lookup_insert_ne by done. unfold main_of.
    destruct (type_counts_of ft !! k) as [c|] eqn:Hc.
    + destruct (at_least_5_percent c _) eqn:Hge.
      * apply map_lookup_filter_Some. by split.
      * apply map_lookup_filter_None. right. intros x Hx Hp. simpl in Hp.
        rewrite Hc in Hx. injection Hx as <-.
        unfold at_least_5_percent in Hge. by rewrite Hge in Hp.
    + apply map_lookup_filter_None. by left.
  - intros k c Hk. split; [by apply type_counts_lookup in Hk as [-> _]|].
    by apply below_is_not_at_least with k.
  - by rewrite lookup_insert_eq.
  - intros Hnone. rewrite counts_sum_insert by done. unfold other_count_of.
    rewrite <- type_counts_total.
    pose proof (counts_sum_split (λ kv, fle lit_0_05 (share kv.2
                                    (counts_sum (type_counts_of ft))) = true)
                  (type_counts_of ft)) as Hsplit.
    etrans; [|symmetry; exact Hsplit].
    unfold main_of. rewrite Z.add_comm. f_equal. f_equal.
    apply map_filter_ext. intros k c Hk. simpl.
    pose proof (below_is_not_at_least ft k c Hlen Hk) as Hcompl.
    unfold below_5_percent, at_least_5_percent in Hcompl. rewrite Hcompl.
    destruct (fle lit_0_05 _); simpl; split; intros; done.
Qed.

Lemma breakdown_counts_witness :
  ∃ slices,
    pie_slices ex_data = Ok slices ∧
    counts_sum (type_counts_of ex_data) = Z.of_nat (length (typed_rows ex_data)) ∧
    (∀ k, k ≠ Str "Other" →
          slices !! k =
            match type_counts_of ex_data !! k with
            | Some c =>
                if at_least_5_percent c (counts_sum (type_counts_of ex_data))
                then Some c else None
            | None => None
            end) ∧
    (∀ k c, type_counts_of ex_data !! k = Some c →
            c = Z.of_nat (length (rows_of_type ex_data k)) ∧
            below_5_percent c (counts_sum (type_counts_of ex_data))
            = negb (at_least_5_percent c (counts_sum (type_counts_of ex_data)))) ∧
    slices !! Str "Other"
      = Some (counts_sum (filter (λ kv, below_5_percent kv.2
                                          (counts_sum (type_counts_of ex_data)) = true)
                                 (type_counts_of ex_data))) ∧
    (main_of (type_counts_of ex_data) !! Str "Other" = None →
     counts_sum slices = Z.of_nat (length (typed_rows ex_data))).
Proof.
  apply (breakdown_counts ex_data); [reflexivity | simpl; lia].
Defined.

(** C4, as stated, fails: a listing whose type is missing is a row of the
    table and of no category.  On a table of two rows, one Condo and one
    without a type, the counts of the breakdown sum to 1. *)
Lemma breakdown_misses_untyped_rows :
  clean ex_raw_untyped = Ok ex_untyped ∧
  filtered ex_untyped (of_int 300) "All" = Ok ex_untyped ∧
  length (rows ex_untyped) = 2 ∧
  ∃ slices, pie_slices ex_untyped = Ok slices ∧
            slices !! Str "Condo" = Some 1%Z ∧
            slices !! Str "Other" = Some 0%Z ∧
            counts_sum slices = 1%Z.
Proof.
  split; [by vm_compute|]. split; [by vm_compute|]. split; [done|].
  eexists. split; [by apply pie_slices_Ok|].
  split; [by vm_compute|]. split; [by vm_compute|]. by vm_compute.
Qed.

(** ** The filter under the slider *)

(** The filter as the script calls it, with the integer of the slider:
    for two integer ceilings from 0 to below 2^53, the lower one keeps a
    part of what the higher one keeps. *)
Corollary filter_monotone_slider (data : DataFrame) (selected_borough : string)
    (max_price1 max_price2 : Z) :
  cleaned data →
  (0 ≤ max_price1 ≤ max_price2)%Z → (max_price2 < 2 ^ 53)%Z →
  ∃ out1 out2,
    filtered data (of_int max_price1) selected_borough = Ok out1 ∧
    filtered data (of_int max_price2) selected_borough = Ok out2 ∧
    rows out1 ⊆ rows out2.
Proof.
  intros Hc H12 Hhi. eexists _, _.
  split; [by apply filtered_rows|]. split; [by apply filtered_rows|]. simpl.
  intros r. rewrite !elem_of_filter_bool, !keeps_spec.
  intros (Hr & (p & Hp & Hle1) & Hb). repeat split; try done.
  exists p. split; [done|]. apply fle_trans with (of_int max_price1); [done|].
  by apply of_int_monotone.
Qed.

(* ===================================================================== *)
(** * Further properties of the script *)
(* ===================================================================== *)

(** ** The borough of a listing *)

(** X1. The extraction leaves the borough unset exactly when the
    sublocality contains none of the five names (in the case they are
    written in), or is missing. *)
Theorem extract_unset_iff (c : cell) :
  extract_cell borough_names c = NaN ↔
  match c with
  | Str s => ¬ contains_one_of borough_names s
  | Num _ => True
  end.
Proof.
  destruct c as [x|s]; simpl; [done|].
  pose proof (re_search_spec borough_names s) as Hs.
  destruct (re_search borough_names s) as [a|] eqn:Hre.
  - split; [discriminate|]. intros Hno. exfalso. apply Hno.
    destruct Hs as (i & k & Hk & Hocc & _). exists a, i.
    split; [by eapply list_elem_of_lookup_2 | done].
  - split; [|done]. intros _ (a & i & Ha & Hocc). by apply (Hs i a).
Qed.

Lemma prefix_head (a b : ascii) (s t : string) :
  String.prefix (String a s) (String b t) = true → a = b.
Proof. simpl. by destruct (ascii_dec a b). Qed.

(** No two of the five names start with the same letter, so at one
    position of a string at most one of them occurs. *)
Lemma one_name_per_position (s a b : string) (i : nat) :
  a ∈ borough_names → b ∈ borough_names →
  occurs_at a i s → occurs_at b i s → a = b.
Proof.
  intros Ha Hb [_ Hpa] [_ Hpb].
  destruct (drop_string i s) as [|c t].
  - unfold borough_names in Ha. set_unfold in Ha.
    destruct Ha as [->|[->|[->|[->|[->|[]]]]]]; discriminate.
  - unfold borough_names in Ha, Hb. set_unfold in Ha. set_unfold in Hb.
    destruct Ha as [->|[->|[->|[->|[->|[]]]]]];
      destruct Hb as [->|[->|[->|[->|[->|[]]]]]]; try done;
      apply prefix_head in Hpa; apply prefix_head in Hpb; congruence.
Qed.

(** X2. The borough is decided by position alone: a name that occurs in
    the sublocality with no name occurring further left is the borough,
    whatever the order of the alternatives in the pattern (no two of the
    five names can start at the same position). *)
Theorem leftmost_name_is_borough (s a : string) (i : nat) :
  a ∈ borough_names →
  occurs_at a i s →
  (∀ j b, j < i → b ∈ borough_names → ¬ occurs_at b j s) →
  extract_cell borough_names (Str s) = Str a.
Proof.
  intros Ha Hocc Hleft. simpl.
  pose proof (re_search_spec borough_names s) as Hs.
  destruct (re_search borough_names s) as [a'|].
  - destruct Hs as (i' & k & Hk & Hocc' & Hleft' & _).
    assert (Ha' : a' ∈ borough_names) by (by eapply list_elem_of_lookup_2).
    assert (i' = i) as ->.
    { destruct (Nat.lt_trichotomy i' i) as [Hlt|[Heq|Hgt]]; [|done|].
      - by destruct (Hleft i' a' Hlt Ha').
      - by destruct (Hleft' i a Hgt Ha). }
    f_equal. by apply (one_name_per_position s a' a i).
  - by destruct (Hs i a Ha).
Qed.

Lemma leftmost_name_is_borough_witness :
  extract_cell borough_names (Str "Rego Park, Queens") = Str "Queens".
Proof.
  apply (leftmost_name_is_borough "Rego Park, Queens" "Queens" 11).
  - apply (bool_decide_unpack _). vm_compute. exact I.
  - split; [simpl; lia | reflexivity].
  - intros j b Hj Hb [_ Hocc]. unfold borough_names in Hb. set_unfold in Hb.
    do 11 (destruct j as [|j]; [destruct Hb as [->|[->|[->|[->|[->|[]]]]]];
                                 vm_compute in Hocc; discriminate|]).
    lia.
Defined.

(** ** The cleaned table *)

Lemma filter_fmap_bool {A B} (f : B → bool) (g : A → B) (l : list A) :
  List.filter f (g <$> l) = g <$> List.filter (λ x, f (g x)) l.
Proof.
  induction l as [|x l IH]; csimpl; [done|].
  destruct (f (g x)); csimpl; by rewrite IH.
Qed.

Lemma survives_derived_row (alias : bool) (r : Row) :
  survives (derived_row alias r) = complete_listing r.
Proof.
  destruct (derived_row_lookup alias r) as (Hb & _ & Hp & Hla & Hlo & _).
  unfold survives, key_fields, complete_listing. simpl.
  rewrite Hb, Hp, Hla, Hlo. by rewrite andb_true_r, !andb_assoc.
Qed.

Lemma clean_rows (raw data : DataFrame) :
  clean raw = Ok data →
  rows data
  = derived_row (has_column (rename str_lower raw) "propertysqft")
      <$> List.filter complete_listing (rows (rename str_lower raw)).
Proof.
  intros H. apply clean_Ok in H as (df & Hd & _ & _ & ->).
  pose proof (derive_Ok _ _ Hd) as (_ & _ & _ & -> & _).
  rewrite filter_fmap_bool. f_equal. apply List.filter_ext. intros r.
  apply survives_derived_row.
Qed.

(** X3. For a file whose lower-cased column labels are distinct, the
    cleaned table is, in the order of the file, the listings that have a
    price, a latitude, a longitude and a sublocality naming a borough,
    each with its three derived fields: no such listing is dropped (a
    missing or zero floor area does not drop one), none is added, and
    the order is kept. *)
Theorem cleaned_rows_exactly (raw data : DataFrame) :
  clean raw = Ok data →
  let df0 := rename str_lower raw in
  NoDup (columns df0) →
  rows data
  = derived_row (has_column df0 "propertysqft")
      <$> List.filter complete_listing (rows df0).
Proof. intros H. cbv zeta. intros _. by apply clean_rows. Qed.

Lemma cleaned_rows_exactly_witness :
  rows ex_data
  = derived_row (has_column (rename str_lower ex_raw) "propertysqft")
      <$> List.filter complete_listing (rows (rename str_lower ex_raw)).
Proof.
  apply (cleaned_rows_exactly ex_raw ex_data).
  - vm_compute. reflexivity.
  - apply (bool_decide_unpack _). vm_compute. exact I.
Defined.

Lemma derived_row_propertysqft (r : Row) :
  cell_at (derived_row true r) "propertysqft" = cell_at r "propertysqft".
Proof.
  unfold derived_row, cell_at. simpl.
  by rewrite !lookup_insert_ne by done.
Qed.

(** X4. When the file has a propertysqft column, every row of the
    cleaned table has it copied in sqft: a sqft column that the file may
    have of its own is overwritten. *)
Theorem sqft_is_propertysqft (raw data : DataFrame) (r : Row) :
  clean raw = Ok data →
  has_column (rename str_lower raw) "propertysqft" = true →
  r ∈ rows data →
  cell_at r "sqft" = cell_at r "propertysqft".
Proof.
  intros H Halias Hr. rewrite (clean_rows raw data H), Halias in Hr.
  apply list_elem_of_fmap in Hr as (r0 & -> & _).
  destruct (derived_row_lookup true r0) as (_ & _ & _ & _ & _ & _ & -> & _).
  by rewrite derived_row_propertysqft.
Qed.

Lemma sqft_is_propertysqft_witness :
  cell_at ex_manhattan "sqft" = cell_at ex_manhattan "propertysqft".
Proof.
  apply (sqft_is_propertysqft ex_raw ex_data ex_manhattan).
  - vm_compute. reflexivity.
  - reflexivity.
  - simpl. apply list_elem_of_further, list_elem_of_here.
Defined.

(** X5. A file with neither a propertysqft nor a sqft column (with
    distinct lower-cased column labels, a text sublocality and a price
    column) makes [load_data] raise KeyError "sqft": the alias of line 37
    is skipped and line 39 reads the column all the same. *)
Theorem no_floor_area_raises (fs : string → res DataFrame) (filepath : string)
    (raw : DataFrame) :
  fs filepath = Ok raw →
  let df0 := rename str_lower raw in
  NoDup (columns df0) →
  has_column df0 "sublocality" = true →
  rows df0 = [] ∨ (∃ r, r ∈ rows df0 ∧ is_str (cell_at r "sublocality") = true) →
  has_column df0 "price" = true →
  has_column df0 "propertysqft" = false →
  has_column df0 "sqft" = false →
  load_data fs filepath = (Raise (KeyError "sqft"), []).
Proof.
  intros Hfs. cbv zeta. intros _ Hsub Htext Hprice Hp Hs.
  unfold load_data. rewrite Hfs. unfold lift. f_equal.
  unfold clean, derive.
  rewrite (getitem_has _ _ Hsub); res_step.
  rewrite (str_accessor_text _ _ Htext); res_step.
  rewrite has_column_setitem, Hp. simpl. res_step.
  unfold getitem at 1. rewrite has_column_setitem, Hprice. simpl. res_step.
  unfold getitem at 1. by rewrite has_column_setitem, Hs.
Qed.

Lemma no_floor_area_raises_witness :
  load_data (λ _, Ok ex_raw_no_sqft) "listings.csv" = (Raise (KeyError "sqft"), []).
Proof.
  apply (no_floor_area_raises (λ _, Ok ex_raw_no_sqft) "listings.csv" ex_raw_no_sqft).
  - reflexivity.
  - apply (bool_decide_unpack _). vm_compute. exact I.
  - reflexivity.
  - right. eexists. split; [apply list_elem_of_here | reflexivity].
  - reflexivity.
  - reflexivity.
  - reflexivity.
Defined.

(** X6. A file with rows none of which has a text sublocality (the
    column is numeric, or empty in every row) makes [load_data] raise
    AttributeError at the [.str] accessor, instead of returning an empty
    table. *)
Theorem no_text_sublocality_raises (fs : string → res DataFrame)
    (filepath : string) (raw : DataFrame) :
  fs filepath = Ok raw →
  let df0 := rename str_lower raw in
  has_column df0 "sublocality" = true →
  rows df0 ≠ [] →
  (∀ r, r ∈ rows df0 → is_str (cell_at r "sublocality") = false) →
  load_data fs filepath = (Raise AttributeError, []).
Proof.
  intros Hfs. cbv zeta. intros Hsub Hne Hnum.
  unfold load_data. rewrite Hfs. unfold lift. f_equal.
  unfold clean, derive.
  rewrite (getitem_has _ _ Hsub); res_step.
  assert (He : existsb is_str ((λ r, cell_at r "sublocality") <$> rows (rename str_lower raw))
               = false).
  { apply not_true_is_false. intros He. apply existsb_exists in He as (c & Hc & Hs).
    apply list_elem_of_In, list_elem_of_fmap in Hc as (r' & -> & Hr').
    by rewrite (Hnum r' Hr') in Hs. }
  unfold str_accessor.
  destruct (rows (rename str_lower raw)) as [|r l] eqn:Hrows; [done|].
  csimpl in *. by rewrite He.
Qed.

Lemma no_text_sublocality_raises_witness :
  load_data (λ _, Ok ex_raw_unnamed) "listings.csv" = (Raise AttributeError, []).
Proof.
  apply (no_text_sublocality_raises (λ _, Ok ex_raw_unnamed) "listings.csv"
           ex_raw_unnamed).
  - reflexivity.
  - reflexivity.
  - simpl. discriminate.
  - intros r Hr. simpl in Hr. apply list_elem_of_singleton in Hr as ->.
    vm_compute. reflexivity.
Defined.




Lemma clean_columns_spec (raw data : DataFrame) (c : string) :
  clean raw = Ok data →
  has_column data c
  = has_column (rename str_lower raw) c
    || bool_decide (c ∈ ["borough"; "sqft"; "price_per_sqft"]).
Proof.
  intros H. apply clean_Ok in H as (df & Hd & Hc & _).
  pose proof (derive_Ok _ _ Hd) as (_ & _ & Hsrc & _ & _ & Hcols).
  rewrite Hc, Hcols. clear Hc Hcols Hd.
  destruct (decide (c = "borough")) as [->|Hb].
  { rewrite (bool_decide_eq_true_2 ("borough" = "borough")) by done.
    rewrite (bool_decide_eq_true_2 (_ ∈ _)) by apply list_elem_of_here.
    by rewrite !orb_true_r. }
  destruct (decide (c = "price_per_sqft")) as [->|Hp].
  { rewrite (bool_decide_eq_true_2 ("price_per_sqft" = "price_per_sqft")) by done.
    rewrite (bool_decide_eq_true_2 (_ ∈ _))
      by (do 2 apply list_elem_of_further; apply list_elem_of_here).
    by rewrite !orb_true_r. }
  rewrite (bool_decide_eq_false_2 (c = "borough")) by done.
  rewrite (bool_decide_eq_false_2 (c = "price_per_sqft")) by done.
  rewrite !orb_false_r.
  destruct (decide (c = "sqft")) as [->|Hs].
  - rewrite (bool_decide_eq_true_2 ("sqft" = "sqft")) by done.
    rewrite (bool_decide_eq_true_2 (_ ∈ _))
      by (apply list_elem_of_further, list_elem_of_here).
    rewrite andb_true_r, orb_true_r.
    destruct (has_column (rename str_lower raw) "propertysqft"); simpl in *;
      [by rewrite orb_true_r | by rewrite Hsrc].
  - rewrite (bool_decide_eq_false_2 (c = "sqft")) by done.
    rewrite (bool_decide_eq_false_2 (_ ∈ _)).
    + by rewrite andb_false_r, !orb_false_r.
    + rewrite !elem_of_cons, elem_of_nil. tauto.
Qed.

Lemma cleaned_has_column (data : DataFrame) (c : string) :
  cleaned data →
  c ∈ ["price"; "latitude"; "longitude"; "sublocality"; "borough"; "sqft";
       "price_per_sqft"] →
  has_column data c = true.
Proof.
  intros [raw H] Hin. rewrite (clean_columns_spec raw data c H).
  pose proof H as H'. apply clean_Ok in H' as (df & Hd & Hc & Hk & _).
  pose proof (derive_Ok _ _ Hd) as (Hsub & Hprice & _).
  assert (Hkey : ∀ k, k ∈ key_fields → k ∉ ["borough"; "sqft"; "price_per_sqft"] →
                 has_column (rename str_lower raw) k = true).
  { intros k Hk' Hne. specialize (Hk k Hk').
    rewrite (clean_columns_spec raw data k H) in Hk.
    by rewrite (bool_decide_eq_false_2 _ Hne), orb_false_r in Hk. }
  assert (Hderived : ∀ k, k ∈ ["borough"; "sqft"; "price_per_sqft"] →
                     has_column (rename str_lower raw) k || bool_decide
                       (k ∈ ["borough"; "sqft"; "price_per_sqft"]) = true).
  { intros k Hk'. by rewrite (bool_decide_eq_true_2 _ Hk'), orb_true_r. }
  rewrite !elem_of_cons, elem_of_nil in Hin.
  destruct Hin as [->|[->|[->|[->|[->|[->|[->|[]]]]]]]].
  - by rewrite Hprice.
  - rewrite Hkey; [done| |].
    + unfold key_fields. rewrite !elem_of_cons. tauto.
    + rewrite !elem_of_cons, elem_of_nil. intros [?|[?|[?|[]]]]; done.
  - rewrite Hkey; [done| |].
    + unfold key_fields. rewrite !elem_of_cons. tauto.
    + rewrite !elem_of_cons, elem_of_nil. intros [?|[?|[?|[]]]]; done.
  - by rewrite Hsub.
  - apply Hderived. rewrite !elem_of_cons. tauto.
  - apply Hderived. rewrite !elem_of_cons. tauto.
  - apply Hderived. rewrite !elem_of_cons. tauto.
Qed.



(** ** The effects of the script *)

Lemma emit_bind {A} (e : event) (f : unit → St A) :
  (emit e ≫= f) = ((f tt).1, e :: (f tt).2).
Proof. reflexivity. Qed.

Lemma lift_Ok_bind {A B} (a : A) (f : A → St B) : (lift (Ok a) ≫= f) = f a.
Proof. unfold lift, mbind, St_bind. simpl. by destruct (f a). Qed.

Lemma lift_Raise_bind {A B} (e : exn) (f : A → St B) :
  (lift (Raise e : res A) ≫= f) = (Raise e, []).
Proof. reflexivity. Qed.

Lemma df_empty_no_rows (df : DataFrame) : rows df = [] → df_empty df = true.
Proof. unfold df_empty. intros ->. by destruct (columns df). Qed.

Lemma df_empty_false (df : DataFrame) (c : string) :
  has_column df c = true → rows df ≠ [] → df_empty df = false.
Proof.
  unfold df_empty, has_column. intros Hc Hr. apply bool_decide_eq_true in Hc.
  destruct (columns df); [by apply elem_of_nil in Hc|].
  by destruct (rows df).
Qed.

(** X8. When the file is read and none of its listings is complete (or
    it has no listing at all), the cleaned table is empty and the script
    stops right after the title: nothing tells the user why the page is
    blank. *)
Theorem no_complete_listing_halts (quicksort : list float → list nat)
    (fs : string → res DataFrame) (ui : UI) (raw data : DataFrame) :
  fs dataset_path = Ok raw →
  clean raw = Ok data →
  (∀ r, r ∈ rows (rename str_lower raw) → complete_listing r = false) →
  script quicksort fs ui
  = (Raise StopException,
     [st_set_page_config "NY Housing Explorer" "wide" "expanded";
      st_title "NY Housing Data"]).
Proof.
  intros Hfs Hclean Hnone.
  assert (Hrows : rows data = []).
  { rewrite (clean_rows raw data Hclean).
    replace (List.filter complete_listing (rows (rename str_lower raw))) with (@nil Row);
      [done|].
    symmetry. by apply filter_none. }
  unfold script, load_data. rewrite Hfs, Hclean.
  rewrite !emit_bind. cbv beta. rewrite lift_Ok_bind.
  rewrite (df_empty_no_rows data Hrows). reflexivity.
Qed.

Lemma no_complete_listing_halts_witness :
  script (λ _, []) (λ _, Ok ex_raw_nowhere) ex_ui
  = (Raise StopException,
     [st_set_page_config "NY Housing Explorer" "wide" "expanded";
      st_title "NY Housing Data"]).
Proof.
  apply (no_complete_listing_halts (λ _, []) (λ _, Ok ex_raw_nowhere) ex_ui
           ex_raw_nowhere (mkDataFrame clean_columns [])).
  - reflexivity.
  - vm_compute. reflexivity.
  - intros r Hr. simpl in Hr. apply list_elem_of_singleton in Hr as ->.
    vm_compute. reflexivity.
Defined.

(** X9. Only [FileNotFoundError] is caught: any other exception that
    [read_csv] raises (a file that cannot be decoded or parsed) leaves
    [load_data] as it is, with no message shown, and ends the script
    after the title. *)
Theorem read_error_propagates (quicksort : list float → list nat)
    (fs : string → res DataFrame) (ui : UI) (filepath : string) (e : exn) :
  fs filepath = Raise e →
  fs dataset_path = Raise e →
  e ≠ FileNotFoundError →
  load_data fs filepath = (Raise e, []) ∧
  script quicksort fs ui
  = (Raise e,
     [st_set_page_config "NY Housing Explorer" "wide" "expanded";
      st_title "NY Housing Data"]).
Proof.
  intros Hf Hd Hne.
  assert (Hl : ∀ path, fs path = Raise e → load_data fs path = (Raise e, [])).
  { intros path Hp. unfold load_data. rewrite Hp. by destruct e. }
  split; [by apply Hl|].
  unfold script. rewrite (Hl _ Hd). reflexivity.
Qed.

Lemma read_error_propagates_witness :
  load_data unreadable_files "listings.csv" = (Raise ValueError, []) ∧
  script (λ _, []) unreadable_files ex_ui
  = (Raise ValueError,
     [st_set_page_config "NY Housing Explorer" "wide" "expanded";
      st_title "NY Housing Data"]).
Proof.
  apply (read_error_propagates (λ _, []) unreadable_files ex_ui "listings.csv"
           ValueError); [reflexivity | reflexivity | discriminate].
Defined.

(** ** The pages *)

Lemma loc_mask_all (df : DataFrame) (f : Row → bool) :
  (∀ r, r ∈ rows df → f r = true) → loc_mask df (f <$> rows df) = df.
Proof.
  intros H. rewrite loc_mask_fmap, (filter_all f _ H). by destruct df.
Qed.

Lemma eq_scalar_borough (df : DataFrame) (sel : string) :
  eq_scalar ((λ r, cell_at r "borough") <$> rows df) sel
  = in_borough sel <$> rows df.
Proof. unfold eq_scalar. rewrite <- list_fmap_compose. done. Qed.

Lemma compute_price_stats_filtered (data : DataFrame) (thr : float) (sel : string) :
  cleaned data →
  let ft := {| columns := columns data;
               rows := List.filter (keeps thr sel) (rows data) |} in
  compute_price_stats ft sel = compute_price_stats ft "All".
Proof.
  intros Hc ft. destruct (cleaned_facts data Hc) as (_ & Hb & _).
  unfold compute_price_stats at 1.
  destruct (String.eqb sel "All") eqn:Hall.
  { by apply String.eqb_eq in Hall as ->. }
  rewrite getitem_has by done. res_step.
  rewrite eq_scalar_borough, loc_mask_all; [done|].
  intros r Hr. simpl in Hr. apply elem_of_filter_bool in Hr as [_ Hk].
  unfold keeps in Hk. rewrite Hall in Hk. simpl in Hk.
  by apply andb_true_iff in Hk as [_ ?].
Qed.

(** X10. In the script the borough test inside [compute_price_stats] is
    redundant: the filtered table already holds the selected borough
    only, so the statistics of the selection are those of the whole
    filtered table. *)
Theorem price_stats_refilter_redundant (data ft : DataFrame)
    (price_threshold : float) (selected_borough : string) :
  cleaned data →
  filtered data price_threshold selected_borough = Ok ft →
  compute_price_stats ft selected_borough = compute_price_stats ft "All".
Proof.
  intros Hc Hf. rewrite (filtered_rows _ _ _ Hc) in Hf. injection Hf as <-.
  by apply compute_price_stats_filtered.
Qed.

Lemma price_stats_refilter_redundant_witness :
  compute_price_stats (mkDataFrame clean_columns [ex_queens]) "Queens"
  = compute_price_stats (mkDataFrame clean_columns [ex_queens]) "All".
Proof.
  apply (price_stats_refilter_redundant ex_data _ (of_int 1000) "Queens").
  - exists ex_raw. vm_compute. reflexivity.
  - vm_compute. reflexivity.
Defined.




Lemma numeric_prices (l : list Row) :
  (∀ r, r ∈ l → ∃ p, cell_at r "price" = Num p) →
  numeric ((λ r, cell_at r "price") <$> l) = Ok (price_of <$> l).
Proof.
  intros H. unfold numeric.
  rewrite (traverse_total _ (λ c, match c with Num x => x | Str _ => nan end)).
  - by rewrite <- list_fmap_compose.
  - apply Forall_fmap, Forall_forall. intros r Hr. simpl.
    by destruct (H r Hr) as (p & ->).
Qed.

Lemma rank_by_price_Ok (quicksort : list float → list nat) (ft : DataFrame)
    (n : nat) (ascending : bool) :
  has_column ft "price" = true →
  (∀ r, r ∈ rows ft → ∃ p, cell_at r "price" = Num p) →
  ∃ out, rank_by_price quicksort ft n ascending = Ok out ∧
         columns out = columns ft.
Proof.
  intros Hp Hnum. unfold rank_by_price, sort_values.
  rewrite (getitem_has _ _ Hp). res_step.
  rewrite (numeric_prices _ Hnum). res_step. eexists. split; reflexivity.
Qed.

(** X12. The Data page needs a type column: when the file has none, the
    page shows its two headings and then fails with KeyError "type" at
    the selection of the columns of the first table, whatever the
    filters and the sorting algorithm. *)
Theorem data_page_needs_type (quicksort : list float → list nat)
    (data ft : DataFrame) (price_threshold : float) (selected_borough : string) :
  cleaned data →
  filtered data price_threshold selected_borough = Ok ft →
  has_column data "type" = false →
  page_data quicksort ft selected_borough
  = (Raise (KeyError "type"),
     [st_subheader "Data Overview";
      st_subheader "Top 5 Most Expensive Listings"]).
Proof.
  intros Hc Hf Htype. rewrite (filtered_rows _ _ _ Hc) in Hf. injection Hf as <-.
  destruct (cleaned_facts data Hc) as (Hp & Hb & Hrows).
  set (ft := {| columns := columns data; rows := _ |}).
  destruct (rank_by_price_Ok quicksort ft 5 false) as (top5 & Htop & Hcols).
  { done. }
  { intros r Hr. simpl in Hr. apply elem_of_filter_bool in Hr as [Hr _].
    destruct (Hrows r Hr) as (p & _ & Hpr & _). by exists p. }
  unfold page_data. rewrite !emit_bind. cbv beta. rewrite Htop, lift_Ok_bind.
  assert (Hproj : project top5 listing_columns = Raise (KeyError "type")).
  { unfold project, listing_columns, has_column. rewrite Hcols. simpl.
    unfold has_column in Hb, Htype. by rewrite Hb, Htype. }
  rewrite Hproj. reflexivity.
Qed.

Lemma data_page_needs_type_witness :
  page_data (λ _, []) ex_no_type "All"
  = (Raise (KeyError "type"),
     [st_subheader "Data Overview";
      st_subheader "Top 5 Most Expensive Listings"]).
Proof.
  apply (data_page_needs_type (λ _, []) ex_no_type ex_no_type (of_int 1000) "All").
  - exists ex_raw_no_type. vm_compute. reflexivity.
  - vm_compute. reflexivity.
  - reflexivity.
Defined.




(** ** The sidebar *)

Lemma emit_bind_events {A} (e : event) (f : unit → St A) :
  (emit e ≫= f).2 = e :: (f tt).2.
Proof. reflexivity. Qed.

Lemma string_compare_lt_trans (a b c : string) :
  String.compare a b = Lt → String.compare b c = Lt → String.compare a c = Lt.
Proof.
  revert b c. induction a as [|x a IH]; intros [|y b] [|z c]; simpl; try done.
  unfold Ascii.compare.
  destruct (N.compare_spec (N_of_ascii x) (N_of_ascii y)) as [Hxy|Hxy|Hxy];
    destruct (N.compare_spec (N_of_ascii y) (N_of_ascii z)) as [Hyz|Hyz|Hyz];
    try done; intros H1 H2.
  - rewrite Hxy, Hyz, N.compare_refl. by apply (IH b c).
  - rewrite Hxy. by apply N.compare_lt_iff in Hyz as ->.
  - rewrite <- Hyz. by apply N.compare_lt_iff in Hxy as ->.
  - assert (N_of_ascii x < N_of_ascii z)%N as Hxz by lia.
    by apply N.compare_lt_iff in Hxz as ->.
Qed.

Lemma string_leb_ltb (a b : string) :
  String.leb a b = true → a ≠ b → String.ltb a b = true.
Proof.
  unfold String.leb, String.ltb. intros H Hne.
  destruct (String.compare a b) eqn:Hc; try done.
  by apply String.compare_eq_iff in Hc.
Qed.

Lemma string_leb_false_ltb (a b : string) :
  String.leb a b = false → String.ltb b a = true.
Proof.
  unfold String.leb, String.ltb. rewrite (String.compare_antisym a b).
  by destruct (String.compare b a).
Qed.

Lemma string_ltb_trans (a b c : string) :
  String.ltb a b = true → String.ltb b c = true → String.ltb a c = true.
Proof.
  unfold String.ltb. intros H1 H2.
  destruct (String.compare a b) eqn:Hab; try done.
  destruct (String.compare b c) eqn:Hbc; try done.
  by rewrite (string_compare_lt_trans a b c).
Qed.

Lemma elem_of_insert_string (x y : string) (l : list string) :
  y ∈ insert_string x l ↔ y = x ∨ y ∈ l.
Proof.
  induction l as [|z l IH]; simpl.
  { rewrite list_elem_of_singleton, elem_of_nil. tauto. }
  destruct (String.leb x z).
  - by rewrite elem_of_cons.
  - rewrite !elem_of_cons, IH. tauto.
Qed.

Lemma insert_string_sorted (x : string) (l : list string) :
  x ∉ l →
  StronglySorted (λ a b, String.ltb a b = true) l →
  StronglySorted (λ a b, String.ltb a b = true) (insert_string x l).
Proof.
  intros Hx Hl. induction Hl as [|z l Hl IH Hz]; simpl.
  { repeat constructor. }
  apply not_elem_of_cons in Hx as [Hxz Hxl].
  destruct (String.leb x z) eqn:Hle.
  - assert (Hlt : String.ltb x z = true) by by apply string_leb_ltb.
    constructor; [by constructor|]. constructor; [done|].
    eapply Forall_impl; [exact Hz|]. intros b Hb. simpl in Hb.
    by apply (string_ltb_trans x z b).
  - constructor; [by apply IH|].
    apply Forall_forall. intros b Hb. apply elem_of_insert_string in Hb as [->|Hb].
    + by apply string_leb_false_ltb.
    + by apply (proj1 (Forall_forall _ _) Hz).
Qed.

Lemma insertion_sort_strings (l : list string) :
  NoDup l →
  StronglySorted (λ a b, String.ltb a b = true) (foldr insert_string [] l) ∧
  ∀ x, x ∈ foldr insert_string [] l ↔ x ∈ l.
Proof.
  induction 1 as [|y l Hy Hnd [Hs He]]; simpl.
  - split; [constructor | done].
  - split.
    + apply insert_string_sorted; [by rewrite He | done].
    + intros x. rewrite elem_of_insert_string, He, elem_of_cons. done.
Qed.

Lemma sorted_unique_spec (l : list string) :
  StronglySorted (λ a b, String.ltb a b = true) (sorted_unique l) ∧
  ∀ x, x ∈ sorted_unique l ↔ x ∈ l.
Proof.
  unfold sorted_unique.
  destruct (insertion_sort_strings (remove_dups l) (NoDup_remove_dups l)) as [Hs He].
  split; [done|]. intros x. by rewrite He, elem_of_remove_dups.
Qed.

Lemma cleaned_borough (data : DataFrame) (r : Row) :
  cleaned data → r ∈ rows data →
  ∃ b, cell_at r "borough" = Str b ∧ b ∈ borough_names.
Proof.
  intros [raw H] Hr. rewrite (clean_rows raw data H) in Hr.
  apply list_elem_of_fmap in Hr as (r0 & -> & Hr0).
  apply elem_of_filter_bool in Hr0 as [_ Hcl].
  unfold complete_listing in Hcl. rewrite !andb_true_iff in Hcl.
  destruct Hcl as [_ Hb]. apply extract_cell_notna in Hb as (s & a & _ & Hre & Hex).
  destruct (derived_row_lookup (has_column (rename str_lower raw) "propertysqft") r0)
    as (-> & _).
  exists a. split; [done|]. by apply re_search_Some_elem in Hre as [? _].
Qed.

Lemma strings_of_boroughs (data : DataFrame) :
  cleaned data →
  ∃ names, strings_of ((λ r, cell_at r "borough") <$> rows data) = Ok names ∧
           ∀ b, b ∈ names ↔ ∃ r, r ∈ rows data ∧ cell_at r "borough" = Str b.
Proof.
  intros Hc.
  exists ((λ c, match c with Str x => x | Num _ => EmptyString end)
            <$> ((λ r, cell_at r "borough") <$> rows data)).
  split.
  - apply traverse_total, Forall_fmap, Forall_forall. intros r Hr. simpl.
    by destruct (cleaned_borough data r Hc Hr) as (b & -> & _).
  - intros b. rewrite <- list_fmap_compose, list_elem_of_fmap. split.
    + intros (r & -> & Hr). exists r. split; [done|]. simpl.
      by destruct (cleaned_borough data r Hc Hr) as (b & -> & _).
    + intros (r & Hr & Hb). exists r. split; [|done]. simpl. by rewrite Hb.
Qed.

(** X14. When the cleaned table has a listing, the sidebar comes right
    after the title and its borough menu offers "All" first and then the
    boroughs that have a listing in the cleaned table, each once, in
    alphabetical order: a borough without a listing is not offered, and
    nothing but the five names is. *)
Theorem sidebar_offers_boroughs (quicksort : list float → list nat)
    (fs : string → res DataFrame) (ui : UI) (raw data : DataFrame) :
  fs dataset_path = Ok raw →
  clean raw = Ok data →
  rows data ≠ [] →
  ∃ options rest,
    (script quicksort fs ui).2
    = [st_set_page_config "NY Housing Explorer" "wide" "expanded";
       st_title "NY Housing Data";
       st_sidebar_header "Filters";
       st_sidebar_selectbox "Borough" ("All" :: options)] ++ rest ∧
    StronglySorted (λ a b, String.ltb a b = true) options ∧
    (∀ b, b ∈ options ↔ ∃ r, r ∈ rows data ∧ cell_at r "borough" = Str b) ∧
    (∀ b, b ∈ options → b ∈ borough_names).
Proof.
  intros Hfs Hclean Hne.
  assert (Hc : cleaned data) by by exists raw.
  destruct (cleaned_facts data Hc) as (Hp & Hb & _).
  destruct (strings_of_boroughs data Hc) as (names & Hnames & Hel).
  destruct (sorted_unique_spec names) as [Hsorted Hsu].
  exists (sorted_unique names). eexists. split; [|split; [done|split]].
  - unfold script, load_data. rewrite Hfs, Hclean.
    rewrite !emit_bind_events. cbv beta. rewrite lift_Ok_bind.
    rewrite (df_empty_false data "price" Hp Hne).
    change (mret tt ≫= ?f) with (lift (Ok tt) ≫= f). rewrite lift_Ok_bind.
    rewrite emit_bind_events. rewrite (getitem_has _ _ Hb), lift_Ok_bind.
    rewrite Hnames, lift_Ok_bind. rewrite emit_bind_events. reflexivity.
  - intros b. by rewrite Hsu, Hel.
  - intros b Hbo. apply Hsu, Hel in Hbo as (r & Hr & Hrb).
    destruct (cleaned_borough data r Hc Hr) as (b' & Hb' & Hin). congruence.
Qed.

Lemma sidebar_offers_boroughs_witness :
  ∃ options rest,
    (script (λ _, []) ex_fs ex_ui).2
    = [st_set_page_config "NY Housing Explorer" "wide" "expanded";
       st_title "NY Housing Data";
       st_sidebar_header "Filters";
       st_sidebar_selectbox "Borough" ("All" :: options)] ++ rest ∧
    StronglySorted (λ a b, String.ltb a b = true) options ∧
    (∀ b, b ∈ options ↔ ∃ r, r ∈ rows ex_data ∧ cell_at r "borough" = Str b) ∧
    (∀ b, b ∈ options → b ∈ borough_names).
Proof.
  apply (sidebar_offers_boroughs (λ _, []) ex_fs ex_ui ex_raw ex_data).
  - reflexivity.
  - vm_compute. reflexivity.
  - discriminate.
Defined.

(** ** The price slider *)

Lemma flt_irrefl (x : float) : flt x x = false.
Proof.
  unfold flt, SFltb. pose proof (SFcompare_antisym x x) as H.
  destruct (SFcompare x x) as [[]|]; try done.
Qed.

Lemma fle_refl (x : float) : is_nan x = false → fle x x = true.
Proof. intros H. apply fle_total; [done | done | apply flt_irrefl]. Qed.

Lemma fmax_spec (a b : float) :
  is_nan a = false → is_nan b = false →
  (fmax a b = a ∨ fmax a b = b) ∧
  fle a (fmax a b) = true ∧ fle b (fmax a b) = true.
Proof.
  intros Ha Hb. unfold fmax. destruct (flt a b) eqn:Hlt.
  - split; [by right|]. split; [by apply flt_fle | by apply fle_refl].
  - split; [by left|]. split; [by apply fle_refl | by apply fle_total].
Qed.

Lemma fold_left_fmax (v : list float) (x : float) :
  is_nan x = false → Forall (λ y, is_nan y = false) v →
  fold_left fmax v x ∈ x :: v ∧
  Forall (λ y, fle y (fold_left fmax v x) = true) (x :: v).
Proof.
  intros Hx Hv. revert x Hx. induction Hv as [|y v Hy Hv IH]; intros x Hx; simpl.
  { split; [apply list_elem_of_here|]. constructor; [by apply fle_refl | constructor]. }
  destruct (fmax_spec x y Hx Hy) as (Hm & Hxm & Hym).
  assert (Hnan : is_nan (fmax x y) = false) by (by destruct Hm as [-> | ->]).
  destruct (IH (fmax x y) Hnan) as [Hin Hub].
  apply Forall_cons in Hub as [Hmax Hub]. split.
  - apply elem_of_cons in Hin as [Hin|Hin].
    + rewrite Hin. destruct Hm as [-> | ->];
        [apply list_elem_of_here | apply list_elem_of_further, list_elem_of_here].
    + by do 2 apply list_elem_of_further.
  - repeat (apply Forall_cons; split); try done.
    + by apply (fle_trans _ (fmax x y)).
    + by apply (fle_trans _ (fmax x y)).
Qed.

Lemma cleaned_prices (data : DataFrame) :
  cleaned data →
  getitem data "price" = Ok ((λ r, cell_at r "price") <$> rows data) ∧
  numeric ((λ r, cell_at r "price") <$> rows data) = Ok (price_of <$> rows data) ∧
  non_nans (price_of <$> rows data) = price_of <$> rows data ∧
  ∀ r, r ∈ rows data → cell_at r "price" = Num (price_of r) ∧
                        is_nan (price_of r) = false.
Proof.
  intros Hc. destruct (cleaned_facts data Hc) as (Hp & _ & Hrows).
  assert (Hpr : ∀ r, r ∈ rows data →
                cell_at r "price" = Num (price_of r) ∧ is_nan (price_of r) = false).
  { intros r Hr. destruct (Hrows r Hr) as (p & b & Hpp & Hn & _).
    unfold price_of. by rewrite Hpp. }
  split; [by apply getitem_has|]. split; [|split; [|done]].
  - apply numeric_prices. intros r Hr. exists (price_of r). by apply Hpr.
  - apply filter_all. intros x Hx. apply list_elem_of_fmap in Hx as (r & -> & Hr).
    by destruct (Hpr r Hr) as [_ ->].
Qed.

(** The highest price of a cleaned table with a listing is the price of
    one of its listings, and no listing is priced higher. *)
Lemma series_max_prices (data : DataFrame) (p : Series) (hi : float) :
  cleaned data → rows data ≠ [] →
  getitem data "price" = Ok p → series_max p = Ok hi →
  (∃ r, r ∈ rows data ∧ cell_at r "price" = Num hi) ∧
  ∀ r, r ∈ rows data → fle (price_of r) hi = true.
Proof.
  intros Hc Hne Hg Hmax. destruct (cleaned_prices data Hc) as (Hg' & Hnum & Hnn & Hpr).
  rewrite Hg' in Hg. injection Hg as <-. unfold series_max in Hmax.
  rewrite Hnum in Hmax. revert Hmax. res_step. rewrite Hnn.
  destruct (rows data) as [|r0 l] eqn:Hrows; [done|]. csimpl. intros [= <-].
  destruct (fold_left_fmax (price_of <$> l) (price_of r0)) as [Hin Hub].
  { apply Hpr, list_elem_of_here. }
  { apply Forall_fmap, Forall_forall. intros r Hr.
    by apply Hpr, list_elem_of_further. }
  split.
  - change (price_of r0 :: (price_of <$> l)) with (price_of <$> r0 :: l) in Hin.
    apply list_elem_of_fmap in Hin as (r & Hr & Hin). exists r. split; [done|].
    rewrite Hr. by apply Hpr.
  - intros r Hr.
    change (price_of r0 :: (price_of <$> l)) with (price_of <$> r0 :: l) in Hub.
    rewrite Forall_fmap, Forall_forall in Hub. by apply Hub.
Qed.

Lemma int_of_float_of_int (z : Z) :
  (0 ≤ z < 2 ^ 53)%Z → int_of_float (of_int z) = Ok z.
Proof.
  intros [H0 Hz]. destruct z as [|p|p]; [done| |lia].
  destruct (of_int_exact p Hz) as (m & -> & Hm). simpl. f_equal.
  assert (Hd : (digits2_pos p ≤ 53)%positive) by (by apply digits2_pos_bound).
  remember (Z.pos (digits2_pos p)) as d eqn:Hdd.
  assert (0 < d ≤ 53)%Z as Hdb by lia.
  rewrite Hm. replace (d - 53)%Z with (- (53 - d))%Z by lia.
  rewrite Z.shiftl_opp_r, Z.shiftr_div_pow2 by lia.
  apply Z.div_mul. apply Z.pow_nonzero; lia.
Qed.

(** X15. When the highest price is a whole number z (below 2^53), the
    slider's maximum, which is also its default, is z itself, and with
    the slider at that value and the borough at "All" the filter keeps
    the whole cleaned table. *)
Theorem default_ceiling_keeps_all (data : DataFrame) (p : Series) (z : Z) :
  cleaned data →
  getitem data "price" = Ok p →
  series_max p = Ok (of_int z) →
  (0 ≤ z < 2 ^ 53)%Z →
  int_of_float (of_int z) = Ok z ∧
  filtered data (of_int z) "All" = Ok data.
Proof.
  intros Hc Hg Hmax Hz. split; [by apply int_of_float_of_int|].
  rewrite (filtered_rows _ _ _ Hc). f_equal.
  destruct (rows data) as [|r0 l] eqn:Hrows.
  { destruct data; simpl in *; by subst. }
  rewrite <- Hrows.
  destruct (series_max_prices data p (of_int z) Hc) as [_ Hub]; try done.
  { by rewrite Hrows. }
  destruct (cleaned_prices data Hc) as (_ & _ & _ & Hpr).
  rewrite filter_all; [by destruct data|].
  intros r Hr. unfold keeps, price_within. destruct (Hpr r Hr) as [-> _].
  rewrite (Hub r Hr). reflexivity.
Qed.

Lemma default_ceiling_keeps_all_witness :
  int_of_float (of_int 500) = Ok 500%Z ∧
  filtered ex_data (of_int 500) "All" = Ok ex_data.
Proof.
  apply (default_ceiling_keeps_all ex_data
           ((λ r, cell_at r "price") <$> rows ex_data) 500).
  - exists ex_raw. vm_compute. reflexivity.
  - reflexivity.
  - vm_compute. reflexivity.
  - lia.
Defined.

(** X16. The slider's maximum is the highest price cut down to a whole
    number.  When that lowers it (the highest price has a fractional
    part), the most expensive listing is in no filtered table: every
    value the slider can deliver, from 0 to its maximum, is below its
    price. *)
Theorem truncated_ceiling_hides_top (data : DataFrame) (p : Series)
    (hi : float) (max_price : Z) :
  cleaned data →
  rows data ≠ [] →
  getitem data "price" = Ok p →
  series_max p = Ok hi →
  int_of_float hi = Ok max_price →
  (max_price < 2 ^ 53)%Z →
  flt (of_int max_price) hi = true →
  ∃ r, r ∈ rows data ∧ cell_at r "price" = Num hi ∧
       ∀ price_threshold selected_borough ft,
         (0 ≤ price_threshold ≤ max_price)%Z →
         filtered data (of_int price_threshold) selected_borough = Ok ft →
         r ∉ rows ft.
Proof.
  intros Hc Hne Hg Hmax _ Hbound Hlt.
  destruct (series_max_prices data p hi Hc Hne Hg Hmax) as [(r & Hr & Hp) _].
  exists r. split; [done|]. split; [done|].
  intros thr sel ft Hthr Hf Hin.
  rewrite (filtered_rows _ _ _ Hc) in Hf. injection Hf as <-. simpl in Hin.
  apply elem_of_filter_bool in Hin as [_ Hk].
  apply keeps_spec in Hk as [(p' & Hp' & Hle) _].
  rewrite Hp in Hp'. injection Hp' as <-.
  assert (Hle' : fle hi (of_int max_price) = true).
  { apply (fle_trans _ (of_int thr)); [done|].
    apply of_int_monotone; lia. }
  apply fle_not_flt in Hle'. congruence.
Qed.

Lemma truncated_ceiling_hides_top_witness :
  ∃ r, r ∈ rows ex_fraction ∧ cell_at r "price" = Num ex_price_100_5 ∧
       ∀ price_threshold selected_borough ft,
         (0 ≤ price_threshold ≤ 100)%Z →
         filtered ex_fraction (of_int price_threshold) selected_borough = Ok ft →
         r ∉ rows ft.
Proof.
  apply (truncated_ceiling_hides_top ex_fraction
           ((λ r, cell_at r "price") <$> rows ex_fraction) ex_price_100_5 100).
  - exists ex_raw_fraction. vm_compute. reflexivity.
  - discriminate.
  - reflexivity.
  - vm_compute. reflexivity.
  - vm_compute. reflexivity.
  - lia.
  - vm_compute. reflexivity.
Defined.

(** ** The borough views *)

Lemma keeps_borough (thr : float) (sel b : string) (r : Row) :
  cell_at r "borough" = Str b →
  keeps thr sel r
  = price_within thr r && (String.eqb sel "All" || String.eqb b sel).
Proof. intros Hb. unfold keeps, in_borough. by rewrite Hb. Qed.

Lemma borough_views_rows (thr : float) (l : list Row) :
  (∀ r, r ∈ l → ∃ b, cell_at r "borough" = Str b ∧ b ∈ borough_names) →
  List.filter (keeps thr "All") l
  ≡ₚ concat ((λ b, List.filter (keeps thr b) l) <$> borough_names).
Proof.
  induction l as [|r l IH]; intros H; [done|].
  assert (IH' := IH (λ r' Hr', H r' (list_elem_of_further _ _ _ Hr'))).
  destruct (H r (list_elem_of_here _ _)) as (b & Hb & Hin).
  unfold borough_names in *. csimpl in *.
  rewrite !(keeps_borough thr _ b r Hb).
  destruct (price_within thr r); simpl; [|done].
  rewrite !app_nil_r in *.
  set_unfold in Hin. destruct Hin as [->|[->|[->|[->|[->|[]]]]]]; simpl;
    rewrite IH', ?app_assoc; rewrite <- ?Permutation_middle; by rewrite <- ?app_assoc.
Qed.

(** X17. The five borough views partition the "All" view: under one
    price ceiling, the listings kept with "All" are those kept with
    Manhattan, Brooklyn, Queens, The Bronx and Staten Island taken
    together, each listing in exactly one of the five. *)
Theorem borough_views_partition (data all : DataFrame) (price_threshold : float) :
  cleaned data →
  filtered data price_threshold "All" = Ok all →
  ∃ views,
    Forall2 (λ b view, filtered data price_threshold b = Ok view)
            borough_names views ∧
    rows all ≡ₚ concat (rows <$> views).
Proof.
  intros Hc Hf. rewrite (filtered_rows _ _ _ Hc) in Hf. injection Hf as <-.
  exists ((λ b, {| columns := columns data;
                   rows := List.filter (keeps price_threshold b) (rows data) |})
            <$> borough_names).
  split.
  - apply Forall2_fmap_r, Forall_Forall2_diag, Forall_forall. intros b _.
    by apply filtered_rows.
  - rewrite <- list_fmap_compose. simpl.
    apply borough_views_rows. intros r Hr. by apply (cleaned_borough data).
Qed.

Lemma borough_views_partition_witness :
  ∃ views,
    Forall2 (λ b view, filtered ex_data (of_int 1000) b = Ok view)
            borough_names views ∧
    rows ex_data ≡ₚ concat (rows <$> views).
Proof.
  apply (borough_views_partition ex_data ex_data (of_int 1000)).
  - exists ex_raw. vm_compute. reflexivity.
  - vm_compute. reflexivity.
Defined.

(** ** The Data page *)

Lemma project_Ok (df : DataFrame) (cols : list string) :
  (∀ c, c ∈ cols → has_column df c = true) →
  project df cols
  = Ok {| columns := cols;
          rows := (λ r, list_to_map ((λ c, (c, cell_at r c)) <$> cols)) <$> rows df |}.
Proof.
  intros H. unfold project.
  destruct (List.find _ cols) as [c|] eqn:Hfind; [|done].
  apply find_some in Hfind as [Hin Hc]. apply list_elem_of_In in Hin.
  by rewrite (H c Hin) in Hc.
Qed.

Lemma price_stats_numeric (df : DataFrame) :
  has_column df "price" = true →
  (∀ r, r ∈ rows df → ∃ p, cell_at r "price" = Num p) →
  ∃ avg med, compute_price_stats df "All" = Ok (Num avg, Num med).
Proof.
  intros Hp Hnum. unfold compute_price_stats. simpl. res_step.
  rewrite (getitem_has _ _ Hp). unfold mean, median.
  rewrite (numeric_prices _ Hnum). res_step. eauto.
Qed.

Lemma rank_by_price_length (quicksort : list float → list nat) (ft out : DataFrame)
    (n : nat) (ascending : bool) :
  rank_by_price quicksort ft n ascending = Ok out → length (rows out) ≤ n.
Proof.
  unfold rank_by_price. intros H. inv_bind H. injection H as <-.
  simpl. apply firstn_le_length.
Qed.

(** X18. On a file whose lower-cased column labels are distinct and
    that has a type column, the Data page never fails, whatever the
    filters and the sorting algorithm: it shows the two tables, each
    with the six listing columns and at most five rows, then the two
    values that [compute_price_stats] returns for the filtered table and
    the selected borough, and the number of rows of the filtered
    table. *)
Theorem data_page_completes (quicksort : list float → list nat)
    (raw data ft : DataFrame) (price_threshold : float)
    (selected_borough : string) :
  clean raw = Ok data →
  NoDup (columns (rename str_lower raw)) →
  has_column data "type" = true →
  filtered data price_threshold selected_borough = Ok ft →
  ∃ top5 cheapest5 avg med,
    page_data quicksort ft selected_borough
    = (Ok tt,
       [st_subheader "Data Overview";
        st_subheader "Top 5 Most Expensive Listings";
        st_table top5;
        st_subheader "5 Cheapest Listings";
        st_table cheapest5;
        st_subheader "Summary Metrics";
        st_metric "Average Price" avg;
        st_metric "Median Price" med;
        st_metric_count "Total Listings" (length (rows ft))]) ∧
    columns top5 = listing_columns ∧ length (rows top5) ≤ 5 ∧
    columns cheapest5 = listing_columns ∧ length (rows cheapest5) ≤ 5 ∧
    compute_price_stats ft selected_borough = Ok (avg, med).
Proof.
  intros Hclean _ Htype Hf.
  assert (Hc : cleaned data) by (by exists raw).
  rewrite (filtered_rows _ _ _ Hc) in Hf. injection Hf as <-.
  set (ft := {| columns := columns data; rows := _ |}).
  destruct (cleaned_facts data Hc) as (Hp & Hb & Hrows).
  assert (Hnum : ∀ r, r ∈ rows ft → ∃ p, cell_at r "price" = Num p).
  { intros r Hr. simpl in Hr. apply elem_of_filter_bool in Hr as [Hr _].
    destruct (Hrows r Hr) as (p & _ & Hpr & _). by exists p. }
  destruct (rank_by_price_Ok quicksort ft 5 false Hp Hnum) as (t5 & Htop & Hcols5).
  destruct (rank_by_price_Ok quicksort ft 5 true Hp Hnum) as (c5 & Hcheap & Hcolc).
  pose proof (rank_by_price_length _ _ _ _ _ Htop) as Hlen5.
  pose proof (rank_by_price_length _ _ _ _ _ Hcheap) as Hlenc.
  destruct (price_stats_numeric ft Hp Hnum) as (avg & med & Hstats).
  pose proof (compute_price_stats_filtered data price_threshold selected_borough Hc)
    as Hsel.
  cbv zeta in Hsel. fold ft in Hsel. rewrite <- Hsel in Hstats.
  assert (Hlist : ∀ out, columns out = columns ft →
                  ∀ c, c ∈ listing_columns → has_column out c = true).
  { intros out Hout c Hin. unfold has_column. rewrite Hout.
    change (has_column data c = true). unfold listing_columns in Hin.
    rewrite !elem_of_cons, elem_of_nil in Hin.
    destruct Hin as [->|[->|[->|[->|[->|[->|[]]]]]]]; try done;
      apply cleaned_has_column; try done; rewrite !elem_of_cons; tauto. }
  eexists _, _, (Num avg), (Num med). split; [|split; [|split; [|split; [|split]]]].
  - unfold page_data. rewrite !emit_bind. cbv beta.
    rewrite Htop, lift_Ok_bind, (project_Ok t5 _ (Hlist t5 Hcols5)), lift_Ok_bind.
    rewrite !emit_bind. cbv beta.
    rewrite Hcheap, lift_Ok_bind, (project_Ok c5 _ (Hlist c5 Hcolc)), lift_Ok_bind.
    rewrite !emit_bind. cbv beta.
    rewrite Hstats, lift_Ok_bind. reflexivity.
  - reflexivity.
  - simpl. by rewrite length_fmap.
  - reflexivity.
  - simpl. by rewrite length_fmap.
  - done.
Qed.

Lemma data_page_completes_witness :
  ∃ top5 cheapest5 avg med,
    page_data (λ _, []) ex_data "All"
    = (Ok tt,
       [st_subheader "Data Overview";
        st_subheader "Top 5 Most Expensive Listings";
        st_table top5;
        st_subheader "5 Cheapest Listings";
        st_table cheapest5;
        st_subheader "Summary Metrics";
        st_metric "Average Price" avg;
        st_metric "Median Price" med;
        st_metric_count "Total Listings" (length (rows ex_data))]) ∧
    columns top5 = listing_columns ∧ length (rows top5) ≤ 5 ∧
    columns cheapest5 = listing_columns ∧ length (rows cheapest5) ≤ 5 ∧
    compute_price_stats ex_data "All" = Ok (avg, med).
Proof.
  apply (data_page_completes (λ _, []) ex_raw ex_data ex_data (of_int 1000) "All").
  - vm_compute. reflexivity.
  - apply (bool_decide_unpack _). vm_compute. exact I.
  - reflexivity.
  - vm_compute. reflexivity.
Defined.

Lemma getitem_missing (df : DataFrame) (c : string) :
  has_column df c = false → getitem df c = Raise (KeyError c).
Proof. unfold getitem. by intros ->. Qed.

(** X19. [compute_price_stats] raises KeyError on a table without a
    price column, such as the empty table [load_data] returns for a
    missing file: the key is "price", or "borough" when a borough is
    asked for and that column is missing too. *)
Theorem price_stats_missing_column (df : DataFrame) (borough : string) :
  has_column df "price" = false →
  compute_price_stats df borough
  = Raise (KeyError (if String.eqb borough "All" || has_column df "borough"
                     then "price" else "borough")).
Proof.
  intros Hp. unfold compute_price_stats.
  destruct (String.eqb borough "All").
  - rewrite orb_true_l. res_step. by rewrite (getitem_missing _ _ Hp).
  - rewrite orb_false_l. destruct (has_column df "borough") eqn:Hb.
    + rewrite (getitem_has _ _ Hb). res_step.
      by rewrite (getitem_missing (loc_mask df _) "price" Hp).
    + by rewrite (getitem_missing _ _ Hb).
Qed.

Lemma price_stats_missing_column_witness :
  compute_price_stats empty_frame "Queens" = Raise (KeyError "borough").
Proof. apply (price_stats_missing_column empty_frame "Queens"). reflexivity. Defined.
